(** * Verification of the e-commerce order orchestrator and admission controller

    Shallow embedding of [common/src/ratelimit.rs] (module [RateLimit])
    and of [order/src/order.rs] (module [Order]). *)

From Stdlib Require Import ZArith NArith List Bool Lia Sorted.
From Stdlib Require SpecFloat.
From stdpp Require Import base gmap strings pretty.
Import ListNotations.

(* ===================================================================== *)
(** ** Admission controller: [common/src/ratelimit.rs] *)
(* ===================================================================== *)

Module RateLimit.

Local Open Scope N_scope.

(** [RateLimitConfig]: [max_requests : u32], [window : Duration].
    Durations and [Instant]s are counted in nanoseconds. *)
Record RateLimitConfig := {
  max_requests : N;
  window : N
}.

(** [ClientState { count: u32, window_start: Instant }]. *)
Record ClientState := {
  count : N;
  window_start : N
}.

(** The [DashMap<String, ClientState>] of the config. *)
Abbreviation Clients := (gmap string ClientState).

(** [Instant::duration_since] saturates at zero. *)
Definition duration_since (now earlier : N) : N := now - earlier.

(** [req.headers().get("x-forwarded-for").and_then(to_str).unwrap_or("unknown")];
    [xff] is the header value when present and readable. *)
Definition client_id (xff : option string) : string :=
  match xff with
  | Some v => v
  | None => "unknown"
  end.

(** The [entry(..).and_modify(..).or_insert_with(..)] block: the new map
    and the value of [allowed].  The entry guard of the map shard makes
    it one indivisible step per key. *)
Definition check_rate (cfg : RateLimitConfig) (clients : Clients)
    (key : string) (now : N) : Clients * bool :=
  match clients !! key with
  | Some state =>
      if window cfg <? duration_since now (window_start state) then
        (<[key := {| count := 1; window_start := now |}]> clients, true)
      else if count state <? max_requests cfg then
        (<[key := {| count := count state + 1;
                     window_start := window_start state |}]> clients, true)
      else (clients, false)
  | None => (<[key := {| count := 1; window_start := now |}]> clients, true)
  end.

(** What [call] returns: the 429 response built in place, or the
    response of the protected service [inner]. *)
Inductive Response (Resp : Type) :=
| TooManyRequests
| Inner (r : Resp).
Arguments TooManyRequests {Resp}.
Arguments Inner {Resp} r.

(** [RateLimitService::call]: the protected service [inner] is only
    invoked inside the [allowed] branch of the returned future. *)
Definition call {Req Resp : Type} (cfg : RateLimitConfig) (clients : Clients)
    (inner : Req -> Resp) (xff : option string) (now : N) (req : Req)
    : Clients * Response Resp :=
  let client := client_id xff in
  let '(clients', allowed) := check_rate cfg clients client now in
  (clients', if negb allowed then TooManyRequests else Inner (inner req)).

(** A sequence of requests from one key, at the given instants; the
    list of [allowed] values. *)
Fixpoint run_key (cfg : RateLimitConfig) (clients : Clients) (key : string)
    (times : list N) : Clients * list bool :=
  match times with
  | [] => (clients, [])
  | t :: ts =>
      let '(c1, a) := check_rate cfg clients key t in
      let '(c2, rest) := run_key cfg c1 key ts in
      (c2, a :: rest)
  end.

(** The state invariant of the spec: every stored count is at most
    [max_requests]. *)
Definition quota_inv (cfg : RateLimitConfig) (clients : Clients) : Prop :=
  forall k st, clients !! k = Some st -> count st <= max_requests cfg.

Definition ten_per_minute : RateLimitConfig :=
  {| max_requests := 10; window := 60 * 1000000000 |}.

End RateLimit.

(* ===================================================================== *)
(** ** Order orchestrator: [order/src/order.rs] *)
(* ===================================================================== *)

Module Order.

Local Open Scope string_scope.
Local Open Scope Z_scope.

(** The floating-point and decimal arithmetic the orchestrator uses
    ([f64], [sqlx::types::Decimal]) is kept abstract: every result below
    holds for any interpretation of it. *)
Class FloatModel := {
  F64 : Type;
  Decimal : Type;
  f64_zero : F64;
  f64_add : F64 -> F64 -> F64;
  f64_mul : F64 -> F64 -> F64;
  (** [quantity as f64] *)
  f64_of_i32 : Z -> F64;
  (** [d.to_string().parse::<f64>().unwrap_or(0.0)] *)
  decimal_to_f64 : Decimal -> F64;
  (** [Decimal::from_f64_retain] *)
  decimal_from_f64_retain : F64 -> option Decimal
}.

(** [OrderStatus] of the order protocol. *)
Inductive OrderStatus :=
| Pending | Confirmed | Processing | Shipped | Delivered | Cancelled.

(** Modelled from the spec: the prost-generated [OrderStatus::try_from(i32)]
    and [OrderStatus as i32] of order.proto, which is not among the
    sources.  The enum has exactly the six values the spec lists (the
    match of [status_to_string] is exhaustive), numbered in that order
    from 0, as proto3 requires one of them to be 0. *)
Definition OrderStatus_try_from (v : Z) : option OrderStatus :=
  match v with
  | 0 => Some Pending
  | 1 => Some Confirmed
  | 2 => Some Processing
  | 3 => Some Shipped
  | 4 => Some Delivered
  | 5 => Some Cancelled
  | _ => None
  end.

Definition OrderStatus_to_i32 (s : OrderStatus) : Z :=
  match s with
  | Pending => 0 | Confirmed => 1 | Processing => 2
  | Shipped => 3 | Delivered => 4 | Cancelled => 5
  end.

(** [status_to_proto] *)
Definition status_to_proto (status : string) : OrderStatus :=
  if String.eqb status "PENDING" then Pending
  else if String.eqb status "CONFIRMED" then Confirmed
  else if String.eqb status "PROCESSING" then Processing
  else if String.eqb status "SHIPPED" then Shipped
  else if String.eqb status "DELIVERED" then Delivered
  else if String.eqb status "CANCELLED" then Cancelled
  else Pending.

(** [status_to_string] *)
Definition status_to_string (status : OrderStatus) : string :=
  match status with
  | Pending => "PENDING"
  | Confirmed => "CONFIRMED"
  | Processing => "PROCESSING"
  | Shipped => "SHIPPED"
  | Delivered => "DELIVERED"
  | Cancelled => "CANCELLED"
  end.

(** Two's-complement wrap-around of an [as i32] cast. *)
Definition wrap_i32 (z : Z) : Z :=
  let m := z mod 2 ^ 32 in if m <? 2 ^ 31 then m else m - 2 ^ 32.

Section Rows.
Context {fm : FloatModel}.

(** [DbOrder], a row of [orders]. *)
Record DbOrder := {
  oid : string;
  user_id : string;
  total_amount : Decimal;
  status : string;
  shipping_address : option string;
  created_at : Z;
  updated_at : Z
}.

(** [DbOrderItem], a row of [order_items]. *)
Record DbOrderItem := {
  iid : string;
  order_id : string;
  product_id : string;
  quantity : Z;
  price : Decimal
}.

(** The columns of [products] the orchestrator reads and writes. *)
Record ProductRow := {
  pid : string;
  pprice : Decimal;
  stock_quantity : Z
}.

(** The relational store; [clock] is [CURRENT_TIMESTAMP]. *)
Record Db := {
  orders : list DbOrder;
  order_items : list DbOrderItem;
  products : list ProductRow;
  clock : Z
}.

(** The protocol [OrderItem] (request items and response items). *)
Record OrderItem := {
  item_product_id : string;
  item_product_name : string;
  item_quantity : Z;
  item_unit_price : F64;
  item_subtotal : F64
}.

(** The protocol [Order]. *)
Record Order := {
  o_order_id : string;
  o_user_id : string;
  o_items : list OrderItem;
  o_total_amount : F64;
  o_status : Z;
  o_shipping_address : string;
  o_created_at : Z;
  o_updated_at : Z
}.

End Rows.

Arguments DbOrder {fm}.
Arguments DbOrderItem {fm}.
Arguments ProductRow {fm}.
Arguments Db {fm}.
Arguments OrderItem {fm}.
Arguments Order {fm}.

(** [tonic::Status]: the infrastructure-fault channel. *)
Inductive Status :=
| Unavailable (msg : string)
| Internal (msg : string)
| InvalidArgument (msg : string).

(** [Result<_, Status>] *)
Inductive result (A : Type) :=
| Ok (a : A)
| Err (e : Status).
Arguments Ok {A} a.
Arguments Err {A} e.

(** The round trips to the collaborators and the SQL statements a call
    performs, in order. *)
Inductive Event :=
| RpcVerify (user : string)
| RpcCheckAvailability (product : string) (qty : Z)
| RpcGetProductsByIds (ids : list string)
| SqlSelectPrice (product : string)
| SqlBegin
| SqlCommit
| SqlRollback
| SqlInsertOrder (id : string)
| SqlInsertOrderItem (id : string)
| SqlUpdateStock (product : string) (delta : Z)
| SqlSelectOrder (id : string)
| SqlSelectOrderItems (id : string)
| SqlUpdateOrder (id : string)
| SqlSelectOrders
| SqlCount.

Section Monad.
Context {fm : FloatModel}.

(** The replies of the user and product services ([Err]: connection or
    service failure), and the ids [Uuid::new_v4] draws. *)
Record Env := {
  rpc_verify : string -> result bool;
  rpc_check_availability : string -> Z -> result bool;
  (** product id and name of every product found *)
  rpc_get_products_by_ids : list string -> result (list (string * string));
  uuid_new_v4 : nat -> string
}.

(** The world of one call: the store, the events so far, and the number
    of uuids drawn. *)
Record St := {
  db : Db;
  trace : list Event;
  uuids_drawn : nat
}.

Definition set_db (d : Db) (s : St) : St :=
  {| db := d; trace := trace s; uuids_drawn := uuids_drawn s |}.

Definition M (A : Type) : Type := St -> St * result A.

Definition ret {A} (a : A) : M A := fun s => (s, Ok a).

Definition bind {A B} (m : M A) (k : A -> M B) : M B :=
  fun s =>
    match m s with
    | (s', Ok a) => k a s'
    | (s', Err e) => (s', Err e)
    end.

(** [?] on a [Result] that is already at hand. *)
Definition lift {A} (r : result A) : M A := fun s => (s, r).

Definition emit (e : Event) : M unit :=
  fun s => ({| db := db s; trace := trace s ++ [e];
              uuids_drawn := uuids_drawn s |}, Ok tt).

Definition read_db : M Db := fun s => (s, Ok (db s)).

Definition write_db (d : Db) : M unit := fun s => (set_db d s, Ok tt).

(** [Uuid::new_v4().to_string()] *)
Definition new_uuid (env : Env) : M string :=
  fun s => ({| db := db s; trace := trace s; uuids_drawn := S (uuids_drawn s) |},
            Ok (uuid_new_v4 env (uuids_drawn s))).

End Monad.

Arguments St {fm}.
Arguments M {fm} A.

Notation "'let*' x ':=' m 'in' k" := (bind m (fun x => k))
  (at level 200, x name, m at level 100, k at level 200).
Notation "m ';;;' k" := (bind m (fun _ => k)) (at level 100, right associativity).

Section Store.
Context {fm : FloatModel}.

(** [self.db.begin()] ... : the body receives the snapshot taken at
    [BEGIN]; a body ending in [Err] (a [?] inside the transaction) drops
    the transaction, which rolls it back. *)
Definition with_tx {A} (body : Db -> M A) : M A :=
  fun s =>
    let snap := db s in
    match (emit SqlBegin ;;; body snap) s with
    | (s', Err e) => (set_db snap s', Err e)
    | (s', Ok a) => (s', Ok a)
    end.

(** [tx.rollback()] *)
Definition rollback (snap : Db) : M unit :=
  emit SqlRollback ;;; write_db snap.

(** [tx.commit()] *)
Definition commit : M unit := emit SqlCommit.

Definition find_order (id : string) (os : list DbOrder) : option DbOrder :=
  find (fun o => String.eqb (oid o) id) os.

(** [SELECT price FROM products WHERE id = $1] *)
Definition select_price (product : string) : M (option Decimal) :=
  emit (SqlSelectPrice product) ;;;
  let* d := read_db in
  ret (option_map pprice (find (fun p => String.eqb (pid p) product) (products d))).

(** [INSERT INTO orders ...]; the primary key rejects a duplicate id. *)
Definition insert_order (row : DbOrder) : M unit :=
  emit (SqlInsertOrder (oid row)) ;;;
  let* d := read_db in
  if existsb (fun o => String.eqb (oid o) (oid row)) (orders d)
  then lift (Err (Internal "Database error: duplicate key value"))
  else write_db {| orders := orders d ++ [row]; order_items := order_items d;
                   products := products d; clock := clock d |}.

(** [INSERT INTO order_items ...]; the primary key rejects a duplicate id. *)
Definition insert_order_item (row : DbOrderItem) : M unit :=
  emit (SqlInsertOrderItem (iid row)) ;;;
  let* d := read_db in
  if existsb (fun i => String.eqb (iid i) (iid row)) (order_items d)
  then lift (Err (Internal "Database error: duplicate key value"))
  else write_db {| orders := orders d; order_items := order_items d ++ [row];
                   products := products d; clock := clock d |}.

Definition add_stock (product : string) (delta : Z) (ps : list ProductRow)
    : list ProductRow :=
  map (fun p => if String.eqb (pid p) product
                then {| pid := pid p; pprice := pprice p;
                        stock_quantity := stock_quantity p + delta |}
                else p) ps.

(** [UPDATE products SET stock_quantity = stock_quantity + $1 ... WHERE id = $2] *)
Definition update_stock (product : string) (delta : Z) : M unit :=
  emit (SqlUpdateStock product delta) ;;;
  let* d := read_db in
  write_db {| orders := orders d; order_items := order_items d;
              products := add_stock product delta (products d); clock := clock d |}.

(** [SELECT ... FROM orders WHERE id = $1] *)
Definition select_order (id : string) : M (option DbOrder) :=
  emit (SqlSelectOrder id) ;;;
  let* d := read_db in
  ret (find_order id (orders d)).

(** [fetch_one]: a missing row is a database error. *)
Definition fetch_one_order (id : string) : M DbOrder :=
  let* o := select_order id in
  match o with
  | Some o => ret o
  | None => lift (Err (Internal "Database error: no rows returned"))
  end.

(** [SELECT ... FROM order_items WHERE order_id = $1]; without an
    [ORDER BY] the database may return the rows in any order, and the
    model returns them in table order. *)
Definition select_order_items (id : string) : M (list DbOrderItem) :=
  emit (SqlSelectOrderItems id) ;;;
  let* d := read_db in
  ret (List.filter (fun i => String.eqb (order_id i) id) (order_items d)).

(** [UPDATE orders SET <cols> , updated_at = CURRENT_TIMESTAMP WHERE id = $]
    with the new columns given by [f]; the number of rows affected. *)
Definition update_order_rows (id : string) (f : DbOrder -> Z -> DbOrder) : M nat :=
  emit (SqlUpdateOrder id) ;;;
  let* d := read_db in
  let hit o := String.eqb (oid o) id in
  write_db {| orders := map (fun o => if hit o then f o (clock d) else o) (orders d);
              order_items := order_items d; products := products d;
              clock := clock d |} ;;;
  ret (length (List.filter hit (orders d))).

End Store.

Section Service.
Context {fm : FloatModel}.

(** Protocol requests and responses of the order service. *)
Record CreateOrderRequest := {
  cr_user_id : string;
  cr_items : list OrderItem;
  cr_shipping_address : string
}.

Record CreateOrderResponse := {
  cres_success : bool;
  cres_message : string;
  cres_order_id : string;
  cres_order : option Order
}.

Record UpdateOrderRequest := {
  ur_order_id : string;
  ur_status : Z;
  ur_shipping_address : string
}.

Record UpdateOrderResponse := {
  ures_success : bool;
  ures_message : string;
  ures_order : option Order
}.

Record CancelOrderRequest := {
  xr_order_id : string;
  xr_user_id : string
}.

Record CancelOrderResponse := {
  xres_success : bool;
  xres_message : string
}.

Record ListOrdersRequest := {
  lr_page : Z;
  lr_page_size : Z;
  lr_status : Z
}.

Record ListOrdersResponse := {
  lres_success : bool;
  lres_message : string;
  lres_orders : list Order;
  lres_total_count : Z
}.

Variable env : Env.

(** [verify_user_by_id]: one round trip to the user service. *)
Definition verify_user_by_id (user : string) : M bool :=
  emit (RpcVerify user) ;;; lift (rpc_verify env user).

(** [check_product_availability]: one round trip to the product service. *)
Definition check_product_availability (product : string) (qty : Z) : M bool :=
  emit (RpcCheckAvailability product qty) ;;;
  lift (rpc_check_availability env product qty).

(** [get_product_price]: a query on the [products] table of the shared
    database, through [self.db]. *)
Definition get_product_price (product : string) : M (option F64) :=
  let* p := select_price product in
  ret (option_map decimal_to_f64 p).

(** [get_products_by_ids]: one round trip to the product service. *)
Definition get_products_by_ids (ids : list string) : M (list (string * string)) :=
  emit (RpcGetProductsByIds ids) ;;; lift (rpc_get_products_by_ids env ids).

(** [product_map.get(id).map_or(String::new(), |p| p.name.clone())]; the
    map was collected from the reply, so a later entry wins. *)
Definition product_name (m : list (string * string)) (id : string) : string :=
  match find (fun kv => String.eqb (fst kv) id) (rev m) with
  | Some kv => snd kv
  | None => ""
  end.

(** [get_order_items] *)
Definition get_order_items (id : string) : M (list OrderItem) :=
  let* db_items := select_order_items id in
  let* product_map := get_products_by_ids (map product_id db_items) in
  ret (map (fun i =>
         let unit_price := decimal_to_f64 (price i) in
         {| item_product_id := product_id i;
            item_product_name := product_name product_map (product_id i);
            item_quantity := quantity i;
            item_unit_price := unit_price;
            item_subtotal := f64_mul unit_price (f64_of_i32 (quantity i)) |})
       db_items).

(** [db_order_to_proto] *)
Definition db_order_to_proto (o : DbOrder) : M Order :=
  let* items := get_order_items (oid o) in
  ret {| o_order_id := oid o;
         o_user_id := user_id o;
         o_items := items;
         o_total_amount := decimal_to_f64 (total_amount o);
         o_status := OrderStatus_to_i32 (status_to_proto (status o));
         o_shipping_address :=
           match shipping_address o with Some a => a | None => "" end;
         o_created_at := created_at o;
         o_updated_at := updated_at o |}.

Definition create_reject (msg : string) : CreateOrderResponse :=
  {| cres_success := false; cres_message := msg;
     cres_order_id := ""; cres_order := None |}.

(** The validation loop of [create_order]: either the early-return
    response, or the running total and the validated [(item, price)]s. *)
Fixpoint validate_items (items : list OrderItem) (total_amount : F64)
    : M (CreateOrderResponse + (F64 * list (OrderItem * F64))) :=
  match items with
  | [] => ret (inr (total_amount, []))
  | item :: rest =>
      if item_quantity item <=? 0 then
        ret (inl (create_reject
          ("Invalid quantity for product " ++ item_product_id item)))
      else
        let* available :=
          check_product_availability (item_product_id item) (item_quantity item) in
        if negb available then
          ret (inl (create_reject ("Product " ++ item_product_id item ++
                                   " not available in requested quantity")))
        else
          let* p := get_product_price (item_product_id item) in
          match p with
          | None =>
              ret (inl (create_reject
                ("Product " ++ item_product_id item ++ " not found")))
          | Some unit_price =>
              let subtotal := f64_mul unit_price (f64_of_i32 (item_quantity item)) in
              let* r := validate_items rest (f64_add total_amount subtotal) in
              match r with
              | inl resp => ret (inl resp)
              | inr (t, validated) => ret (inr (t, (item, unit_price) :: validated))
              end
          end
  end.

(** [?] on an [Option] turned into a [Status]. *)
Definition ok_or {A} (o : option A) (e : Status) : M A :=
  match o with
  | Some a => ret a
  | None => lift (Err e)
  end.

(** The second loop of [create_order]: insert each line item and take
    its quantity off the stock, inside the transaction. *)
Fixpoint persist_items (new_order_id : string) (validated : list (OrderItem * F64))
    : M unit :=
  match validated with
  | [] => ret tt
  | (item, unit_price) :: rest =>
      let* item_id := new_uuid env in
      let* price_decimal :=
        ok_or (decimal_from_f64_retain unit_price) (InvalidArgument "Invalid price") in
      insert_order_item {| iid := item_id; order_id := new_order_id;
                           product_id := item_product_id item;
                           quantity := item_quantity item;
                           price := price_decimal |} ;;;
      update_stock (item_product_id item) (- item_quantity item) ;;;
      persist_items new_order_id rest
  end.

(** [create_order] *)
Definition create_order (req : CreateOrderRequest) : M CreateOrderResponse :=
  if String.eqb (cr_user_id req) "" then ret (create_reject "User ID is required")
  else if match cr_items req with [] => true | _ => false end then
    ret (create_reject "Order must contain at least one item")
  else
    let* verified := verify_user_by_id (cr_user_id req) in
    if negb verified then ret (create_reject "User not found")
    else
      let* v := validate_items (cr_items req) f64_zero in
      match v with
      | inl resp => ret resp
      | inr (total_amount, validated) =>
          let* new_order_id := with_tx (fun _ =>
            let* new_order_id := new_uuid env in
            let* total_decimal :=
              ok_or (decimal_from_f64_retain total_amount)
                    (InvalidArgument "Invalid total amount") in
            let* d := read_db in
            insert_order {| oid := new_order_id;
                            user_id := cr_user_id req;
                            total_amount := total_decimal;
                            status := "PENDING";
                            shipping_address :=
                              if String.eqb (cr_shipping_address req) ""
                              then None else Some (cr_shipping_address req);
                            (* the INSERT leaves both timestamps to the
                               column defaults of the schema, which is not
                               among the sources; the model stamps them
                               with [CURRENT_TIMESTAMP] *)
                            created_at := clock d;
                            updated_at := clock d |} ;;;
            persist_items new_order_id validated ;;;
            commit ;;;
            ret new_order_id) in
          let* order := fetch_one_order new_order_id in
          let* proto_order := db_order_to_proto order in
          ret {| cres_success := true;
                 cres_message := "Order created successfully";
                 cres_order_id := new_order_id;
                 cres_order := Some proto_order |}
      end.

(** [update_order] *)
Definition update_order (req : UpdateOrderRequest) : M UpdateOrderResponse :=
  if String.eqb (ur_order_id req) "" then
    ret {| ures_success := false; ures_message := "Order ID is required";
           ures_order := None |}
  else
    let status_str := status_to_string
      (match OrderStatus_try_from (ur_status req) with
       | Some st => st
       | None => Pending
       end) in
    let address := if String.eqb (ur_shipping_address req) ""
                   then None else Some (ur_shipping_address req) in
    let* rows_affected := update_order_rows (ur_order_id req) (fun o now =>
      {| oid := oid o; user_id := user_id o; total_amount := total_amount o;
         status := status_str; shipping_address := address;
         created_at := created_at o; updated_at := now |}) in
    if Nat.eqb rows_affected 0 then
      ret {| ures_success := false; ures_message := "Order not found";
             ures_order := None |}
    else
      let* order := fetch_one_order (ur_order_id req) in
      let* proto_order := db_order_to_proto order in
      ret {| ures_success := true; ures_message := "Order updated successfully";
             ures_order := Some proto_order |}.

Definition cancel_reject (msg : string) : CancelOrderResponse :=
  {| xres_success := false; xres_message := msg |}.

(** The inventory loop of [cancel_order]. *)
Fixpoint restore_inventory (items : list DbOrderItem) : M unit :=
  match items with
  | [] => ret tt
  | item :: rest =>
      update_stock (product_id item) (quantity item) ;;; restore_inventory rest
  end.

(** [cancel_order] *)
Definition cancel_order (req : CancelOrderRequest) : M CancelOrderResponse :=
  if String.eqb (xr_order_id req) "" then ret (cancel_reject "Order ID is required")
  else
    with_tx (fun snap =>
      let* o := select_order (xr_order_id req) in
      match o with
      | None => rollback snap ;;; ret (cancel_reject "Order not found")
      | Some order =>
          if negb (String.eqb (xr_user_id req) "") &&
             negb (String.eqb (user_id order) (xr_user_id req)) then
            rollback snap ;;; ret (cancel_reject "Order does not belong to this user")
          else if String.eqb (status order) "CANCELLED" then
            rollback snap ;;; ret (cancel_reject "Order is already cancelled")
          else if String.eqb (status order) "DELIVERED" then
            rollback snap ;;; ret (cancel_reject "Cannot cancel delivered order")
          else
            let* items := select_order_items (xr_order_id req) in
            restore_inventory items ;;;
            let* _ := update_order_rows (xr_order_id req) (fun o now =>
              {| oid := oid o; user_id := user_id o; total_amount := total_amount o;
                 status := "CANCELLED"; shipping_address := shipping_address o;
                 created_at := created_at o; updated_at := now |}) in
            commit ;;;
            ret {| xres_success := true; xres_message := "Order cancelled successfully" |}
      end).

(** [ORDER BY created_at DESC]; PostgreSQL leaves the order of rows with
    equal [created_at] unspecified, and this insertion sort puts them in
    reverse table order. *)
Fixpoint insert_by_created_desc (o : DbOrder) (os : list DbOrder) : list DbOrder :=
  match os with
  | [] => [o]
  | o' :: rest =>
      if created_at o' <? created_at o then o :: os
      else o' :: insert_by_created_desc o rest
  end.

Definition sort_by_created_desc (os : list DbOrder) : list DbOrder :=
  fold_right insert_by_created_desc [] os.

(** [SELECT ... FROM orders [WHERE ..] ORDER BY created_at DESC LIMIT $ OFFSET $];
    PostgreSQL rejects a negative [OFFSET]. *)
Definition select_orders_page (keep : DbOrder -> bool) (limit offset : Z)
    : M (list DbOrder) :=
  emit SqlSelectOrders ;;;
  let* d := read_db in
  if offset <? 0 then lift (Err (Internal "Database error: OFFSET must not be negative"))
  else ret (firstn (Z.to_nat limit)
              (skipn (Z.to_nat offset) (sort_by_created_desc (List.filter keep (orders d))))).

(** [SELECT COUNT(...) FROM orders [WHERE ..]] *)
Definition count_orders (keep : DbOrder -> bool) : M Z :=
  emit SqlCount ;;;
  let* d := read_db in
  ret (Z.of_nat (length (List.filter keep (orders d)))).

Fixpoint map_m {A B} (f : A -> M B) (l : list A) : M (list B) :=
  match l with
  | [] => ret []
  | x :: rest => let* y := f x in let* ys := map_m f rest in ret (y :: ys)
  end.

(** [list_orders]; [(page - 1) * page_size] is an [i32] product, which
    wraps around in a release build. *)
Definition list_orders (req : ListOrdersRequest) : M ListOrdersResponse :=
  let page := if lr_page req <=? 0 then 1 else lr_page req in
  let page_size := if (lr_page_size req <=? 0) || (100 <? lr_page_size req)
                   then 10 else lr_page_size req in
  let offset := wrap_i32 ((page - 1) * page_size) in
  let st := match OrderStatus_try_from (lr_status req) with
            | Some st => st
            | None => Pending
            end in
  let status_str := status_to_string st in
  let keep (o : DbOrder) :=
    if lr_status req =? 0 then true else String.eqb (status o) status_str in
  let* rows := select_orders_page keep page_size offset in
  let* total_count := count_orders keep in
  let* proto_orders := map_m db_order_to_proto rows in
  ret {| lres_success := true;
         lres_message := "Retrieved " ++ pretty (N.of_nat (length proto_orders)) ++ " orders";
         lres_orders := proto_orders;
         lres_total_count := wrap_i32 total_count |}.

Record GetOrderRequest := {
  gr_order_id : string
}.

Record GetOrderResponse := {
  gres_success : bool;
  gres_message : string;
  gres_order : option Order
}.

(** [get_order] *)
Definition get_order (req : GetOrderRequest) : M GetOrderResponse :=
  if String.eqb (gr_order_id req) "" then
    ret {| gres_success := false; gres_message := "Order ID is required";
           gres_order := None |}
  else
    let* order_result := select_order (gr_order_id req) in
    match order_result with
    | Some order =>
        let* proto_order := db_order_to_proto order in
        ret {| gres_success := true; gres_message := "Order retrieved successfully";
               gres_order := Some proto_order |}
    | None =>
        ret {| gres_success := false; gres_message := "Order not found";
               gres_order := None |}
    end.

Record GetOrdersByUserRequest := {
  ur_user_id : string;
  ur_page : Z;
  ur_page_size : Z
}.

Record GetOrdersByUserResponse := {
  ures_orders_success : bool;
  ures_orders_message : string;
  ures_orders : list Order;
  ures_total_count : Z
}.

(** [get_orders_by_user]; the same paging as [list_orders], with
    [WHERE user_id = $1]. *)
Definition get_orders_by_user (req : GetOrdersByUserRequest) : M GetOrdersByUserResponse :=
  if String.eqb (ur_user_id req) "" then
    ret {| ures_orders_success := false; ures_orders_message := "User ID is required";
           ures_orders := []; ures_total_count := 0 |}
  else
    let page := if ur_page req <=? 0 then 1 else ur_page req in
    let page_size := if (ur_page_size req <=? 0) || (100 <? ur_page_size req)
                     then 10 else ur_page_size req in
    let offset := wrap_i32 ((page - 1) * page_size) in
    let keep (o : DbOrder) := String.eqb (user_id o) (ur_user_id req) in
    let* orders := select_orders_page keep page_size offset in
    let* count := count_orders keep in
    let* proto_orders := map_m db_order_to_proto orders in
    ret {| ures_orders_success := true;
           ures_orders_message :=
             "Retrieved " ++ pretty (N.of_nat (length proto_orders)) ++ " orders for user";
           ures_orders := proto_orders;
           ures_total_count := wrap_i32 count |}.

End Service.

(** An exact instance of the arithmetic (amounts in cents), used to run
    the model on concrete stores. *)
Definition cents_model : FloatModel := {|
  F64 := Z;
  Decimal := Z;
  f64_zero := 0;
  f64_add := Z.add;
  f64_mul := Z.mul;
  f64_of_i32 := fun q => q;
  decimal_to_f64 := fun d => d;
  decimal_from_f64_retain := fun f => Some f
|}.

(** Modelled from the spec: an IEEE-754 binary64 instance of the
    arithmetic, in which [total_amount] and [price], the spec's
    "fixed-point currency", are amounts in cents (two decimal places).
    The schema, in a migration that is not among the sources, fixes the
    columns' scale and precision; this instance bounds neither.  [f64] is
    Corelib's [SpecFloat] at 53 bits of precision and exponent bound 1024,
    rounding to nearest, ties to even, as Rust's [f64] does. *)

(** [q as f64] *)
Definition f64_of_Z (z : Z) : SpecFloat.spec_float :=
  SpecFloat.binary_normalize 53 1024 z 0 false.

(** [d.to_string().parse::<f64>()] of an amount of [d] cents: the float
    nearest to [d / 100], as [str::parse] rounds correctly and so does the
    division of the two exactly represented integers. *)
Definition f64_of_cents (d : Z) : SpecFloat.spec_float :=
  SpecFloat.SFdiv 53 1024 (f64_of_Z d) (f64_of_Z 100).

(** [num / den] rounded half away from zero, for [num >= 0] and [den > 0]. *)
Definition round_div_half_away (num den : Z) : Z :=
  let q := num / den in if den <=? 2 * (num mod den) then q + 1 else q.

(** [Decimal::from_f64_retain] keeps the exact value of a finite float
    ([None] for NaN, the infinities and magnitudes of [2^96] and more);
    binding it to a two-decimal column rounds it to cents, half away from
    zero.  The 28 significant digits a [Decimal] keeps are many more than
    the rounding to cents needs. *)
Definition cents_of_f64 (f : SpecFloat.spec_float) : option Z :=
  match f with
  | SpecFloat.S754_zero _ => Some 0
  | SpecFloat.S754_finite s m e =>
      let c := if 0 <=? e then Zpos m * 100 * 2 ^ e
               else round_div_half_away (Zpos m * 100) (2 ^ (- e)) in
      if (0 <=? e) && (2 ^ 96 <=? Zpos m * 2 ^ e) then None
      else Some (if s then - c else c)
  | _ => None
  end.

Definition ieee_model : FloatModel := {|
  F64 := SpecFloat.spec_float;
  Decimal := Z;
  f64_zero := SpecFloat.S754_zero false;
  f64_add := SpecFloat.SFadd 53 1024;
  f64_mul := SpecFloat.SFmul 53 1024;
  f64_of_i32 := f64_of_Z;
  decimal_to_f64 := f64_of_cents;
  decimal_from_f64_retain := cents_of_f64
|}.

End Order.


(* ===================================================================== *)
(** ** Notions used in the statements about the orchestrator *)
(* ===================================================================== *)

Module OrderSpec.
Import Order.
Local Open Scope string_scope.
Local Open Scope Z_scope.

Section Preds.
Context {fm : FloatModel}.

(** The cases in which [cancel_order] must reject: empty id, no such
    order, another owner, already cancelled, delivered. *)
Definition cancel_rejects (req : CancelOrderRequest) (d : Db) : bool :=
  String.eqb (xr_order_id req) "" ||
  match find_order (xr_order_id req) (orders d) with
  | None => true
  | Some o =>
      (negb (String.eqb (xr_user_id req) "") &&
       negb (String.eqb (user_id o) (xr_user_id req))) ||
      String.eqb (status o) "CANCELLED" || String.eqb (status o) "DELIVERED"
  end.

(** The total quantity of product [p] in a list of request items. *)
Definition ordered_qty (items : list OrderItem) (p : string) : Z :=
  fold_right (fun it acc =>
    (if String.eqb (item_product_id it) p then item_quantity it else 0) + acc) 0 items.

(** Every product row's stock shifted by [f] of its id. *)
Definition shift_stock (f : string -> Z) (ps : list ProductRow) : list ProductRow :=
  map (fun r => {| pid := pid r; pprice := pprice r;
                   stock_quantity := stock_quantity r + f (pid r) |}) ps.

(** The foreign key of [order_items]: every line item belongs to a
    stored order. *)
Definition items_reference_orders (d : Db) : Prop :=
  forall i, In i (order_items d) -> exists o, In o (orders d) /\ oid o = order_id i.

(** The user and product services always reply. *)
Definition collaborators_reply (env : Env) : Prop :=
  (forall u, exists b, rpc_verify env u = Ok b) /\
  (forall p q, exists b, rpc_check_availability env p q = Ok b).

(** Some validation step of CreateOrder fails on store [d]. *)
Definition validation_fails (env : Env) (req : CreateOrderRequest) (d : Db) : Prop :=
  cr_user_id req = "" \/
  cr_items req = [] \/
  rpc_verify env (cr_user_id req) = Ok false \/
  Exists (fun it =>
    item_quantity it <= 0 \/
    rpc_check_availability env (item_product_id it) (item_quantity it) = Ok false \/
    find (fun p => String.eqb (pid p) (item_product_id it)) (products d) = None)
    (cr_items req).

(** The events of the per-item validation of CreateOrder. *)
Definition validation_events (items : list OrderItem) : list Event :=
  flat_map (fun it => [RpcCheckAvailability (item_product_id it) (item_quantity it);
                       SqlSelectPrice (item_product_id it)]) items.

(** Round trips to the product service. *)
Definition is_catalog_rpc (e : Event) : bool :=
  match e with
  | RpcCheckAvailability _ _ | RpcGetProductsByIds _ => true
  | _ => false
  end.

Definition is_stock_update (e : Event) : bool :=
  match e with SqlUpdateStock _ _ => true | _ => false end.

(** A computation that leaves the store unchanged. *)
Definition keeps_db {A} (m : M A) : Prop := forall s, db (fst (m s)) = db s.

(** The row written by [update_order] at time [now]. *)
Definition updated_row (req : UpdateOrderRequest) (now : Z) (o : DbOrder) : DbOrder :=
  {| oid := oid o; user_id := user_id o; total_amount := total_amount o;
     status := status_to_string
       (match OrderStatus_try_from (ur_status req) with Some st => st | None => Pending end);
     shipping_address := if String.eqb (ur_shipping_address req) ""
                         then None else Some (ur_shipping_address req);
     created_at := created_at o; updated_at := now |}.

(** Item [it] fails the per-item validation on store [d]. *)
Definition item_fails (env : Env) (d : Db) (it : OrderItem) : Prop :=
  item_quantity it <= 0 \/
  rpc_check_availability env (item_product_id it) (item_quantity it) = Ok false \/
  find (fun p => String.eqb (pid p) (item_product_id it)) (products d) = None.

(** The total quantity of product [p] in a list of stored line items. *)
Definition line_qty (rows : list DbOrderItem) (p : string) : Z :=
  fold_right (fun r acc => (if String.eqb (product_id r) p then quantity r else 0) + acc) 0 rows.

(** The row written by [cancel_order] at time [now]. *)
Definition cancelled_row (now : Z) (o : DbOrder) : DbOrder :=
  {| oid := oid o; user_id := user_id o; total_amount := total_amount o;
     status := "CANCELLED"; shipping_address := shipping_address o;
     created_at := created_at o; updated_at := now |}.

(** The status ListOrders filters on for a non-zero [status] field. *)
Definition requested_status (v : Z) : OrderStatus :=
  match OrderStatus_try_from v with Some st => st | None => Pending end.

(** The writes to the shared store: the order service's mutating calls,
    and a write of the catalog service, which touches only [products]
    ([product/src/product.rs]: INSERT, UPDATE and DELETE on [products]). *)
Inductive StoreOp :=
| OpCreate (env : Env) (req : CreateOrderRequest)
| OpUpdate (env : Env) (req : UpdateOrderRequest)
| OpCancel (req : CancelOrderRequest)
| OpCatalogWrite (f : list ProductRow -> list ProductRow).

Definition run_op (s : St) (op : StoreOp) : St :=
  match op with
  | OpCreate env req => fst (create_order env req s)
  | OpUpdate env req => fst (update_order env req s)
  | OpCancel req => fst (cancel_order req s)
  | OpCatalogWrite f =>
      set_db {| orders := orders (db s); order_items := order_items (db s);
                products := f (products (db s)); clock := clock (db s) |} s
  end.

Definition run_ops (s : St) (ops : list StoreOp) : St := fold_left run_op ops s.

(** The id and [total_amount] of every stored order, in table order. *)
Definition order_totals (d : Db) : list (string * Decimal) :=
  map (fun o => (oid o, total_amount o)) (orders d).

(** Every order of [d] keeps its id and total in [d'], and every line
    item of [d] (with its price) is still a row of [d']. *)
Definition snapshot_kept (d d' : Db) : Prop :=
  (exists more, order_totals d' = (order_totals d ++ more)%list) /\
  (exists more, order_items d' = (order_items d ++ more)%list).



End Preds.
End OrderSpec.

(* ===================================================================== *)
(** ** Orders: concrete stores *)
(* ===================================================================== *)

Module OrderExamples.
Import Order OrderSpec.
Local Open Scope string_scope.
Local Open Scope Z_scope.
#[local] Existing Instance cents_model.


Definition env0 : Env := {|
  rpc_verify := fun _ => Ok true;
  rpc_check_availability := fun _ _ => Ok true;
  rpc_get_products_by_ids := fun ids => Ok (map (fun p => (p, "Widget")) ids);
  uuid_new_v4 := fun n => "uuid-" ++ pretty (N.of_nat n) |}.

Definition widget : ProductRow := {| pid := "P1"; pprice := 500; stock_quantity := 10 |}.

Definition order_row (id st : string) (addr : option string) : DbOrder :=
  {| oid := id; user_id := "U1"; total_amount := 1000; status := st;
     shipping_address := addr; created_at := 50; updated_at := 50 |}.

Definition store0 (os : list DbOrder) : St :=
  {| db := {| orders := os; order_items := []; products := [widget]; clock := 100 |};
     trace := []; uuids_drawn := 0 |}.

Definition line (q : Z) : OrderItem :=
  {| item_product_id := "P1"; item_product_name := "Widget"; item_quantity := q;
     item_unit_price := 0; item_subtotal := 0 |}.

Definition create_req (q : Z) : CreateOrderRequest :=
  {| cr_user_id := "U1"; cr_items := [line q]; cr_shipping_address := "Main St 1" |}.

Definition created0 := Eval vm_compute in create_order env0 (create_req 2) (store0 []).
Definition created0_state : St := fst created0.
Definition created0_resp : CreateOrderResponse :=
  match snd created0 with Ok r => r | Err _ => create_reject "unreachable" end.
Definition cancelled0 := Eval vm_compute in
  cancel_order {| xr_order_id := cres_order_id created0_resp; xr_user_id := "U1" |}
    created0_state.
Definition cancelled0_state : St := fst cancelled0.
Definition cancelled0_resp : CancelOrderResponse :=
  match snd cancelled0 with Ok r => r | Err _ => cancel_reject "unreachable" end.

Definition listed0 := Eval vm_compute in
  list_orders env0 {| lr_page := 1; lr_page_size := 10; lr_status := 2 |}
    (store0 [order_row "o1" "CONFIRMED" None; order_row "o2" "PROCESSING" None]).

Definition listed0_resp : ListOrdersResponse :=
  match snd listed0 with
  | Ok r => r
  | Err _ => {| lres_success := false; lres_message := "unreachable"; lres_orders := [];
                lres_total_count := 0 |}
  end.

Definition item_row (id o p : string) (q pr : Z) : DbOrderItem :=
  {| iid := id; order_id := o; product_id := p; quantity := q; price := pr |}.

(** Orders of two users; o1 has two line items. *)
Definition store_items : St :=
  {| db := {| orders := [order_row "o1" "SHIPPED" None;
                         {| oid := "o2"; user_id := "U2"; total_amount := 500;
                            status := "PENDING"; shipping_address := None;
                            created_at := 60; updated_at := 60 |};
                         order_row "o3" "PENDING" None];
              order_items := [item_row "i1" "o1" "P1" 3 500; item_row "i2" "o2" "P1" 1 500;
                              item_row "i3" "o1" "P2" 1 250];
              products := [widget]; clock := 100 |};
     trace := []; uuids_drawn := 0 |}.

(** The product service is down for the name lookup. *)
Definition env_names_down : Env := {|
  rpc_verify := fun _ => Ok true;
  rpc_check_availability := fun _ _ => Ok true;
  rpc_get_products_by_ids := fun _ => Err (Unavailable "Failed to connect to product service");
  uuid_new_v4 := fun n => "uuid-" ++ pretty (N.of_nat n) |}.

End OrderExamples.

(* ===================================================================== *)
(** ** Orders: concrete stores with binary64 arithmetic *)
(* ===================================================================== *)

Module OrderFloatExamples.
Import Order OrderSpec.
Local Open Scope string_scope.
Local Open Scope Z_scope.
#[local] Existing Instance ieee_model.

(** A request line; [create_order] reads only its product id and quantity. *)
Definition fline (p : string) (q : Z) : OrderItem :=
  {| item_product_id := p; item_product_name := ""; item_quantity := q;
     item_unit_price := SpecFloat.S754_zero false;
     item_subtotal := SpecFloat.S754_zero false |}.

Definition store_with (ps : list ProductRow) : St :=
  {| db := {| orders := []; order_items := []; products := ps; clock := 100 |};
     trace := []; uuids_drawn := 0 |}.

(** The spec's scenario: P1 at 9.99, two units. *)
Definition scenario_store : St :=
  store_with [{| pid := "P1"; pprice := 999; stock_quantity := 10 |}].

Definition scenario_req : CreateOrderRequest :=
  {| cr_user_id := "U"; cr_items := [fline "P1" 2]; cr_shipping_address := "A" |}.

(** P1 at 50000.01, 1000000001 units. *)
Definition bulk_store : St :=
  store_with [{| pid := "P1"; pprice := 5000001; stock_quantity := 2000000000 |}].

Definition bulk_req : CreateOrderRequest :=
  {| cr_user_id := "U"; cr_items := [fline "P1" 1000000001]; cr_shipping_address := "A" |}.

Definition scenario_run := Eval vm_compute in
  create_order OrderExamples.env0 scenario_req scenario_store.

Definition bulk_run := Eval vm_compute in
  create_order OrderExamples.env0 bulk_req bulk_store.

End OrderFloatExamples.

(* ===================================================================== *)
(** ** Admission controller: properties *)
(* ===================================================================== *)

Module RateLimitFacts.
Import RateLimit.
Local Open Scope N_scope.

Lemma check_rate_keep_window (cfg : RateLimitConfig) (clients : Clients)
    key t0 c t :
  clients !! key = Some {| count := c; window_start := t0 |} ->
  t0 <= t <= t0 + window cfg ->
  check_rate cfg clients key t =
    if c <? max_requests cfg
    then (<[key := {| count := c + 1; window_start := t0 |}]> clients, true)
    else (clients, false).
Proof.
  intros Hk Ht. unfold check_rate, duration_since. rewrite Hk. simpl.
  replace (window cfg <? t - t0) with false
    by (symmetry; apply N.ltb_ge; lia).
  reflexivity.
Qed.

(** Requests of one key, all inside the window opened at [t0] with
    count [c]: the [i]-th is allowed exactly when [c + i < max_requests]. *)
Lemma run_key_within_window (cfg : RateLimitConfig) key t0 (ts : list N) :
  Forall (fun t => t0 <= t <= t0 + window cfg) ts ->
  forall (clients : Clients) c,
  clients !! key = Some {| count := c; window_start := t0 |} ->
  snd (run_key cfg clients key ts) =
    map (fun i => c + N.of_nat i <? max_requests cfg) (seq 0 (length ts)).
Proof.
  induction 1 as [|t ts Ht Hts IH]; intros clients c Hk; [reflexivity|].
  simpl. rewrite (check_rate_keep_window cfg clients key t0 c t Hk Ht).
  destruct (c <? max_requests cfg) eqn:Hc.
  - destruct (run_key cfg _ key ts) as [c2 rest] eqn:Hrun. simpl.
    rewrite N.add_0_r, Hc. f_equal.
    specialize (IH (<[key := {| count := c + 1; window_start := t0 |}]> clients)
      (c + 1) ltac:(by rewrite lookup_insert_eq)).
    rewrite Hrun in IH. simpl in IH. rewrite IH.
    rewrite <- seq_shift, map_map. apply map_ext. intros i.
    f_equal. lia.
  - destruct (run_key cfg clients key ts) as [c2 rest] eqn:Hrun. simpl.
    rewrite N.add_0_r, Hc. f_equal.
    specialize (IH _ c Hk). rewrite Hrun in IH. simpl in IH. rewrite IH.
    rewrite <- seq_shift, map_map. apply map_ext. intros i.
    apply N.ltb_ge in Hc.
    transitivity false; [|symmetry]; apply N.ltb_ge; lia.
Qed.

(** C5: the fixed window counter.  On first sighting a key gets
    [{count: 1, window_start: now}] and is allowed; a later sighting
    after more than [window] resets to [{1, now}] and is allowed; inside
    the window it is incremented and allowed while [count < max_requests],
    and denied without any change otherwise; a denied request yields the
    429 response and never runs the protected service.  With 10 requests
    per 60s, the 11th request of a key within 60s of its first is denied,
    and a request 61s after [window_start] is allowed with a fresh window. *)
Theorem fixed_window_counter (cfg : RateLimitConfig) (clients : Clients)
    (key : string) (now : N) :
  (clients !! key = None ->
   check_rate cfg clients key now =
     (<[key := {| count := 1; window_start := now |}]> clients, true)) /\
  (forall st, clients !! key = Some st ->
   window cfg < now - window_start st ->
   check_rate cfg clients key now =
     (<[key := {| count := 1; window_start := now |}]> clients, true)) /\
  (forall st, clients !! key = Some st ->
   now - window_start st <= window cfg -> count st < max_requests cfg ->
   check_rate cfg clients key now =
     (<[key := {| count := count st + 1;
                  window_start := window_start st |}]> clients, true)) /\
  (forall st, clients !! key = Some st ->
   now - window_start st <= window cfg -> max_requests cfg <= count st ->
   check_rate cfg clients key now = (clients, false)) /\
  (forall (Req Resp : Type) (inner : Req -> Resp) xff req,
   snd (check_rate cfg clients (client_id xff) now) = false ->
   call cfg clients inner xff now req = (clients, TooManyRequests)) /\
  (forall t0 (ts : list N), length ts = 11%nat ->
   Forall (fun t => t0 <= t <= t0 + 60 * 1000000000) ts ->
   clients !! key = None -> hd_error ts = Some t0 ->
   nth_error (snd (run_key ten_per_minute clients key ts)) 10 = Some false) /\
  (forall st, clients !! key = Some st ->
   now = window_start st + 61 * 1000000000 ->
   check_rate ten_per_minute clients key now =
     (<[key := {| count := 1; window_start := now |}]> clients, true)).
Proof.
  split; [intros H; unfold check_rate; by rewrite H|].
  split; [intros st H Hw; unfold check_rate, duration_since; rewrite H; by rewrite (proj2 (N.ltb_lt _ _) Hw)|].
  split.
  { intros st H Hw Hc. unfold check_rate, duration_since. rewrite H.
    rewrite (proj2 (N.ltb_ge _ _) Hw), (proj2 (N.ltb_lt _ _) Hc).
    reflexivity. }
  split.
  { intros st H Hw Hc. unfold check_rate, duration_since. rewrite H.
    rewrite (proj2 (N.ltb_ge _ _) Hw), (proj2 (N.ltb_ge _ _) Hc).
    reflexivity. }
  split.
  { intros Req Resp inner xff req Hd. unfold call.
    revert Hd.
    destruct (check_rate cfg clients (client_id xff) now) as [c' a] eqn:Hc.
    simpl. intros ->.
    unfold check_rate, duration_since in Hc.
    destruct (clients !! client_id xff) as [st|]; [|discriminate].
    destruct (window cfg <? now - window_start st); [discriminate|].
    destruct (count st <? max_requests cfg); [discriminate|].
    inversion Hc; reflexivity. }
  split.
  { intros t0 ts Hlen Hin Hk Hhd.
    destruct ts as [|t ts]; [discriminate|]. injection Hhd as ->.
    inversion Hin as [|? ? _ Hts]; subst.
    simpl. unfold check_rate at 1. rewrite Hk.
    destruct (run_key ten_per_minute _ key ts) as [c2 rest] eqn:Hrun.
    pose proof (run_key_within_window ten_per_minute key t0 ts Hts
      (<[key := {| count := 1; window_start := t0 |}]> clients) 1
      ltac:(by rewrite lookup_insert_eq)) as Hw.
    rewrite Hrun in Hw. simpl in Hw |- *. rewrite Hw.
    simpl in Hlen. injection Hlen as Hlen. rewrite Hlen. reflexivity. }
  intros st H ->. unfold check_rate, duration_since, ten_per_minute. simpl.
  rewrite H.
  replace (60 * 1000000000 <? window_start st + 61 * 1000000000 - window_start st)
    with true by (symmetry; apply N.ltb_lt; lia).
  reflexivity.
Qed.

Lemma fixed_window_counter_witness :
  nth_error (snd (run_key ten_per_minute ∅ "10.0.0.7"
    [0; 1; 2; 3; 4; 5; 6; 7; 8; 9; 10])) 10 = Some false.
Proof.
  destruct (fixed_window_counter ten_per_minute ∅ "10.0.0.7" 0)
    as (_ & _ & _ & _ & _ & H & _).
  apply (H 0); [reflexivity| |reflexivity|reflexivity].
  repeat constructor; vm_compute; discriminate.
Defined.

(** C8 (as stated, refuted): with [max_requests = 0] the first request
    of a key stores [count = 1 > max_requests]. *)
Lemma quota_inv_fails_for_zero_max :
  let cfg := {| max_requests := 0; window := 60 * 1000000000 |} in
  quota_inv cfg ∅ /\ ~ quota_inv cfg (fst (check_rate cfg ∅ "unknown" 0)).
Proof.
  intros cfg. split.
  - intros k st H. by rewrite lookup_empty in H.
  - intros Hinv. unfold check_rate in Hinv. rewrite lookup_empty in Hinv.
    specialize (Hinv "unknown"%string {| count := 1; window_start := 0 |}).
    cbn [fst] in Hinv. rewrite lookup_insert_eq in Hinv.
    specialize (Hinv eq_refl). subst cfg. simpl in Hinv. lia.
Qed.

(** Every step of [check_rate] keeps [quota_inv] once [max_requests >= 1]. *)
Lemma check_rate_preserves_inv (cfg : RateLimitConfig) (clients : Clients) key now :
  1 <= max_requests cfg -> quota_inv cfg clients ->
  quota_inv cfg (fst (check_rate cfg clients key now)).
Proof.
  intros Hmax Hinv. unfold check_rate.
  destruct (clients !! key) as [st|] eqn:Hk.
  - destruct (window cfg <? duration_since now (window_start st)).
    + intros k st'. simpl. destruct (decide (k = key)) as [->|Hne].
      * rewrite lookup_insert_eq. intros [= <-]. simpl. lia.
      * rewrite lookup_insert_ne by congruence. apply Hinv.
    + destruct (count st <? max_requests cfg) eqn:Hc.
      * apply N.ltb_lt in Hc.
        intros k st'. simpl. destruct (decide (k = key)) as [->|Hne].
        -- rewrite lookup_insert_eq. intros [= <-]. simpl. lia.
        -- rewrite lookup_insert_ne by congruence. apply Hinv.
      * exact Hinv.
  - intros k st'. simpl. destruct (decide (k = key)) as [->|Hne].
    + rewrite lookup_insert_eq. intros [= <-]. simpl. lia.
    + rewrite lookup_insert_ne by congruence. apply Hinv.
Qed.

Lemma run_key_preserves_inv (cfg : RateLimitConfig) key (ts : list N) :
  1 <= max_requests cfg ->
  forall clients : Clients, quota_inv cfg clients ->
  quota_inv cfg (fst (run_key cfg clients key ts)).
Proof.
  intros Hmax. induction ts as [|t ts IH]; intros clients Hinv; [exact Hinv|].
  simpl. pose proof (check_rate_preserves_inv cfg clients key t Hmax Hinv) as H1.
  destruct (check_rate cfg clients key t) as [c1 a] eqn:E.
  specialize (IH c1 H1).
  destruct (run_key cfg c1 key ts) as [c2 rest]. exact IH.
Qed.

(** C8 (amended): for every configuration with [max_requests >= 1] the
    empty table satisfies [count <= max_requests], and creation, reset,
    increment and denial all preserve it, so it holds after any sequence
    of requests of any keys. *)
Theorem quota_inv_preserved (cfg : RateLimitConfig) :
  1 <= max_requests cfg ->
  quota_inv cfg ∅ /\
  (forall (clients : Clients) key now, quota_inv cfg clients ->
     quota_inv cfg (fst (check_rate cfg clients key now))) /\
  (forall (clients : Clients) key ts, quota_inv cfg clients ->
     quota_inv cfg (fst (run_key cfg clients key ts))).
Proof.
  intros Hmax. split; [|split].
  - intros k st H. by rewrite lookup_empty in H.
  - intros. by apply check_rate_preserves_inv.
  - intros. by apply run_key_preserves_inv.
Qed.

Lemma quota_inv_preserved_witness :
  (1 <= max_requests ten_per_minute) /\
  quota_inv ten_per_minute (fst (run_key ten_per_minute ∅ "unknown"
    [0; 1; 2; 3; 4; 5; 6; 7; 8; 9; 10; 11])).
Proof.
  assert (H : 1 <= max_requests ten_per_minute) by (simpl; lia).
  split; [exact H|].
  destruct (quota_inv_preserved ten_per_minute H) as (H0 & _ & Hrun).
  apply Hrun, H0.
Defined.

End RateLimitFacts.

(* ===================================================================== *)
(** ** Orders: properties *)
(* ===================================================================== *)

Module OrderFacts.
Import Order OrderSpec.
Local Open Scope string_scope.
Local Open Scope Z_scope.

Section Facts.
Context {fm : FloatModel}.


Lemma bind_inv {A B} (m : M A) (k : A -> M B) s s' r :
  bind m k s = (s', r) ->
  (exists e, m s = (s', Err e) /\ r = Err e) \/
  (exists s1 a, m s = (s1, Ok a) /\ k a s1 = (s', r)).
Proof.
  unfold bind. destruct (m s) as [s1 [a|e]]; intros H.
  - right. eauto.
  - left. inversion H; subst. eauto.
Qed.

Lemma keeps_bind {A B} (m : M A) (k : A -> M B) :
  keeps_db m -> (forall a, keeps_db (k a)) -> keeps_db (bind m k).
Proof.
  intros Hm Hk s. unfold bind. specialize (Hm s).
  destruct (m s) as [s1 [a|e]]; simpl in *; [rewrite Hk|]; exact Hm.
Qed.

Lemma keeps_ret {A} (a : A) : keeps_db (ret a).
Proof. intros s. reflexivity. Qed.
Lemma keeps_lift {A} (r : result A) : keeps_db (lift r).
Proof. intros s. reflexivity. Qed.
Lemma keeps_emit e : keeps_db (emit e).
Proof. intros s. reflexivity. Qed.
Lemma keeps_read : keeps_db read_db.
Proof. intros s. reflexivity. Qed.

Ltac keeps := repeat (intros; apply keeps_bind || apply keeps_ret || apply keeps_lift
  || apply keeps_emit || apply keeps_read).

Lemma keeps_select_order id : keeps_db (select_order id).
Proof. unfold select_order. keeps. Qed.
Lemma keeps_fetch_one_order id : keeps_db (fetch_one_order id).
Proof. unfold fetch_one_order. apply keeps_bind; [apply keeps_select_order|].
  intros [o|]; keeps. Qed.
Lemma keeps_get_order_items env id : keeps_db (get_order_items env id).
Proof. unfold get_order_items, select_order_items, get_products_by_ids. keeps. Qed.
Lemma keeps_db_order_to_proto env o : keeps_db (db_order_to_proto env o).
Proof. unfold db_order_to_proto. apply keeps_bind; [apply keeps_get_order_items|]. keeps. Qed.
Lemma keeps_map_m {A B} (f : A -> M B) l : (forall a, keeps_db (f a)) -> keeps_db (map_m f l).
Proof. intros Hf. induction l; simpl; [keeps|]. apply keeps_bind; [auto|]. intros. apply keeps_bind; [auto|]. keeps. Qed.
Lemma keeps_select_price p : keeps_db (select_price p).
Proof. unfold select_price. keeps. Qed.

Lemma keeps_validate_items env items t : keeps_db (validate_items env items t).
Proof.
  revert t. induction items as [|it rest IH]; intros t; simpl; [keeps|].
  destruct (item_quantity it <=? 0); [keeps|].
  unfold check_product_availability. apply keeps_bind; [keeps|]. intros b.
  destruct b; simpl; [|keeps].
  unfold get_product_price. apply keeps_bind; [apply keeps_bind; [apply keeps_select_price| keeps]|].
  intros [p|]; [|keeps]. apply keeps_bind; [apply IH|]. intros [r|[t' v]]; keeps.
Qed.

Ltac run_m := unfold with_tx, bind, emit, select_order, select_order_items, read_db, ret,
  rollback, write_db, commit, lift; cbn.

Lemma restore_inventory_ok (items : list DbOrderItem) s :
  exists s', restore_inventory items s = (s', Ok tt).
Proof.
  revert s. induction items as [|i rest IH]; intros s; simpl; [eauto|].
  unfold update_stock, bind, emit, read_db, write_db. cbn. apply IH.
Qed.

(** C4: a CancelOrder that must reject (empty id, no such order, another
    owner, already cancelled, delivered) answers [success = false] and
    leaves the store (stock, order rows, line items) as it was; more
    generally every answer with [success = false], and every fault,
    leaves the store unchanged. *)
Theorem cancel_rejection_rolls_back (req : CancelOrderRequest) (s : St) :
  (cancel_rejects req (db s) = true ->
   exists msg s', cancel_order req s = (s', Ok (cancel_reject msg)) /\ db s' = db s) /\
  (forall s' resp, cancel_order req s = (s', Ok resp) ->
   xres_success resp = false -> db s' = db s) /\
  (forall s' e, cancel_order req s = (s', Err e) -> db s' = db s).
Proof.
  unfold cancel_rejects, cancel_order.
  destruct (String.eqb (xr_order_id req) "") eqn:E.
  { split; [intros _; do 2 eexists; split; reflexivity|].
    split; intros ? ? H; inversion H; reflexivity. }
  simpl. run_m.
  destruct (find_order (xr_order_id req) (orders (db s))) as [o|] eqn:Ho; cbn.
  2:{ split; [intros _; do 2 eexists; split; reflexivity|].
      split; intros ? ? H; inversion H; reflexivity. }
  destruct (negb _ && negb _) eqn:E1; cbn.
  { split; [intros _; do 2 eexists; split; reflexivity|].
    split; intros ? ? H; inversion H; reflexivity. }
  destruct (String.eqb (status o) "CANCELLED") eqn:E2; cbn.
  { split; [intros _; do 2 eexists; split; reflexivity|].
    split; intros ? ? H; inversion H; reflexivity. }
  destruct (String.eqb (status o) "DELIVERED") eqn:E3; cbn.
  { split; [intros _; do 2 eexists; split; reflexivity|].
    split; intros ? ? H; inversion H; reflexivity. }
  split; [discriminate|].
  match goal with |- context [restore_inventory ?l ?s0] =>
    destruct (restore_inventory_ok l s0) as [s1 Hr]; rewrite Hr end.
  cbn. split.
  - intros ? ? H Hf. inversion H; subst. discriminate.
  - intros ? ? H. inversion H.
Qed.

(** The columns [update_order] writes into a matching row. *)

Lemma update_order_db env (req : UpdateOrderRequest) (s : St) :
  String.eqb (ur_order_id req) "" = false ->
  db (fst (update_order env req s)) =
    {| orders := map (fun o => if String.eqb (oid o) (ur_order_id req)
                               then updated_row req (clock (db s)) o else o)
                     (orders (db s));
       order_items := order_items (db s); products := products (db s);
       clock := clock (db s) |}.
Proof.
  intros E. unfold update_order. rewrite E.
  unfold update_order_rows, bind at 1, emit, read_db, write_db, ret. cbn.
  destruct (Nat.eqb _ 0); [reflexivity|].
  apply keeps_bind; [apply keeps_fetch_one_order|].
  intros o. apply keeps_bind; [apply keeps_db_order_to_proto|]. intros; apply keeps_ret.
Qed.

Lemma get_order_items_ok env id s :
  (forall ids, exists ps, rpc_get_products_by_ids env ids = Ok ps) ->
  exists s' items, get_order_items env id s = (s', Ok items).
Proof.
  intros Henv. unfold get_order_items, select_order_items, get_products_by_ids,
    bind, emit, read_db, ret, lift. cbn.
  match goal with |- context [rpc_get_products_by_ids env ?l] =>
    destruct (Henv l) as [ps Hps]; rewrite Hps end.
  eauto.
Qed.

Lemma db_order_to_proto_ok env o s :
  (forall ids, exists ps, rpc_get_products_by_ids env ids = Ok ps) ->
  exists s' po, db_order_to_proto env o s = (s', Ok po).
Proof.
  intros Henv. unfold db_order_to_proto, bind at 1.
  destruct (get_order_items_ok env (oid o) s Henv) as (s1 & items & ->).
  eauto.
Qed.

Lemma find_order_some id os :
  (exists o, In o os /\ oid o = id) -> exists o, find_order id os = Some o.
Proof.
  intros (o & Hin & Hid). unfold find_order.
  destruct (find _ os) as [o'|] eqn:Hf; [eauto|].
  exfalso. eapply find_none in Hf; [|exact Hin]. simpl in Hf.
  rewrite Hid, String.eqb_refl in Hf. discriminate.
Qed.

Lemma find_order_map_same id (f : DbOrder -> DbOrder) os :
  (forall o, oid (f o) = oid o) ->
  (exists o, In o os /\ oid o = id) ->
  exists o, In o (map (fun o => if String.eqb (oid o) id then f o else o) os) /\ oid o = id.
Proof.
  intros Hf (o & Hin & Hid). exists (f o). split; [|by rewrite Hf].
  apply in_map_iff. exists o. split; [|exact Hin]. by rewrite Hid, String.eqb_refl.
Qed.

Lemma update_order_rows_count (req : UpdateOrderRequest) (os : list DbOrder) :
  (exists o, In o os /\ oid o = ur_order_id req) ->
  Nat.eqb (length (List.filter (fun o => String.eqb (oid o) (ur_order_id req)) os)) 0 = false.
Proof.
  intros (o & Hin & Hid). apply Nat.eqb_neq.
  assert (In o (List.filter (fun o => String.eqb (oid o) (ur_order_id req)) os)).
  { apply filter_In. split; [exact Hin|]. by rewrite Hid, String.eqb_refl. }
  destruct (List.filter _ os); [contradiction|discriminate].
Qed.

(** C10: an [UpdateOrder] whose status is none of the six enum values is
    not rejected: the value falls back to [Pending], the stored status
    becomes ["PENDING"], and the response is a success (or a transport
    fault of the product lookup that re-hydrates the items). *)
Theorem update_unknown_status_sets_pending env (req : UpdateOrderRequest) (s : St) :
  ur_order_id req <> "" ->
  OrderStatus_try_from (ur_status req) = None ->
  (exists o, In o (orders (db s)) /\ oid o = ur_order_id req) ->
  (forall o, In o (orders (db (fst (update_order env req s)))) ->
     oid o = ur_order_id req -> status o = "PENDING") /\
  (exists o, In o (orders (db (fst (update_order env req s)))) /\ oid o = ur_order_id req) /\
  (forall resp, snd (update_order env req s) = Ok resp -> ures_success resp = true) /\
  ((forall ids, exists ps, rpc_get_products_by_ids env ids = Ok ps) ->
     exists resp, snd (update_order env req s) = Ok resp /\ ures_success resp = true).
Proof.
  intros Hid Hst Hex.
  assert (E : String.eqb (ur_order_id req) "" = false) by (apply String.eqb_neq; exact Hid).
  rewrite (update_order_db env req s E).
  split; [|split].
  - cbn. intros o Hin Ho. apply in_map_iff in Hin as (o0 & Heq & _).
    destruct (String.eqb (oid o0) (ur_order_id req)) eqn:Ho0.
    + subst o. unfold updated_row. simpl. by rewrite Hst.
    + subst o. rewrite Ho, String.eqb_refl in Ho0. discriminate.
  - cbn. apply find_order_map_same; [reflexivity|exact Hex].
  - unfold update_order. rewrite E.
    unfold update_order_rows, bind at 1, emit, read_db, write_db, ret at 1. cbn.
    rewrite (update_order_rows_count req _ Hex).
    set (d1 := {| orders := _ |}).
    assert (Hf : exists o, find_order (ur_order_id req) (orders d1) = Some o).
    { apply find_order_some. apply find_order_map_same; [reflexivity|exact Hex]. }
    destruct Hf as [o Hf].
    unfold fetch_one_order, select_order, bind, emit, read_db, ret. cbn.
    subst d1. unfold find_order in Hf. cbn in Hf. rewrite Hf. cbn.
    split.
    + intros resp.
      destruct (db_order_to_proto env o _) as [s2 [po|e]]; cbn; intros H; inversion H; reflexivity.
    + intros Henv.
      match goal with |- context [db_order_to_proto env o ?s1] =>
        destruct (db_order_to_proto_ok env o s1 Henv) as (s2 & po & ->) end.
      cbn. eauto.
Qed.


Lemma validate_items_rejects env (items : list OrderItem) :
  forall t s, Exists (item_fails env (db s)) items ->
  db (fst (validate_items env items t s)) = db s /\
  ((exists e, snd (validate_items env items t s) = Err e) \/
   (exists msg, snd (validate_items env items t s) = Ok (inl (create_reject msg)))) /\
  (collaborators_reply env ->
   exists msg, snd (validate_items env items t s) = Ok (inl (create_reject msg))).
Proof.
  induction items as [|it rest IH]; intros t s Hex; [inversion Hex|].
  split; [apply keeps_validate_items|].
  simpl. destruct (item_quantity it <=? 0) eqn:Hq.
  { split; [right|intros _]; eexists; reflexivity. }
  unfold check_product_availability, bind at 1, emit, lift. cbn.
  destruct (rpc_check_availability env (item_product_id it) (item_quantity it))
    as [[|]|e] eqn:Ha; cbn.
  3:{ split; [left; eexists; reflexivity|].
      intros [_ Hc]. destruct (Hc (item_product_id it) (item_quantity it)) as [b Hb].
      congruence. }
  2:{ split; [right|intros _]; eexists; reflexivity. }
  unfold get_product_price, select_price, bind, emit, read_db, ret. cbn.
  destruct (find (fun p => String.eqb (pid p) (item_product_id it)) (products (db s)))
    as [p|] eqn:Hp; cbn.
  2:{ split; [right|intros _]; eexists; reflexivity. }
  assert (Hrest : Exists (item_fails env (db s)) rest).
  { inversion Hex as [? ? Hit|? ? Hr]; subst; [|exact Hr].
    exfalso. destruct Hit as [Hit|[Hit|Hit]]; [lia|congruence|congruence]. }
  match goal with |- context [validate_items env rest ?t1 ?s1] =>
    pose proof (IH t1 s1) as HH end.
  specialize (HH Hrest). destruct HH as (_ & Hor & Hrep).
  revert Hor Hrep.
  match goal with |- context [validate_items env rest ?t1 ?s1] =>
    destruct (validate_items env rest t1 s1) as [s2 [[r|[t' v]]|e]] end.
  all: cbn; intros Hor Hrep.
  - destruct Hor as [[e' He]|[msg Hm]]; [discriminate|].
    injection Hm as ->. split; [right|intros _]; eexists; reflexivity.
  - destruct Hor as [[e' He]|[msg Hm]]; discriminate.
  - split; [left; eexists; reflexivity|].
    intros Hc. destruct (Hrep Hc) as [msg Hm]. discriminate.
Qed.

(** C1: if a validation step of CreateOrder fails, the call leaves the
    store exactly as it was (no order row, no line item, no stock
    change) and answers a normal rejection with [success = false];
    only a failed round trip to a collaborator, before the failing
    check is reached, turns the answer into a transport fault. *)
Theorem create_order_rejects_without_persisting env (req : CreateOrderRequest) (s : St) :
  validation_fails env req (db s) ->
  db (fst (create_order env req s)) = db s /\
  ((exists e, snd (create_order env req s) = Err e) \/
   (exists msg, snd (create_order env req s) = Ok (create_reject msg))) /\
  (collaborators_reply env ->
   exists msg, snd (create_order env req s) = Ok (create_reject msg) /\
               cres_success (create_reject msg) = false).
Proof.
  intros Hv. unfold create_order.
  destruct (String.eqb (cr_user_id req) "") eqn:Hu.
  { split; [reflexivity|]. split; [right|intros _]; eexists; split; reflexivity. }
  destruct (cr_items req) as [|it0 items0] eqn:Hi.
  { split; [reflexivity|]. split; [right|intros _]; eexists; split; reflexivity. }
  cbn -[validate_items]. unfold verify_user_by_id, bind at 1 2, emit, lift.
  cbn -[validate_items].
  destruct (rpc_verify env (cr_user_id req)) as [[|]|e] eqn:Hver; cbn -[validate_items].
  3:{ split; [reflexivity|]. split; [left; eexists; reflexivity|].
      intros [Hc _]. destruct (Hc (cr_user_id req)) as [b Hb]. congruence. }
  2:{ split; [reflexivity|]. split; [right|intros _]; eexists; split; reflexivity. }
  assert (Hex : Exists (item_fails env (db s)) (it0 :: items0)).
  { destruct Hv as [Hv|[Hv|[Hv|Hv]]].
    - apply String.eqb_eq in Hv. congruence.
    - congruence.
    - congruence.
    - rewrite Hi in Hv. exact Hv. }
  unfold bind.
  match goal with |- context [validate_items env ?l ?t ?s1] =>
    pose proof (validate_items_rejects env l t s1) as HH end.
  specialize (HH Hex). destruct HH as (Hdb & Hor & Hrep).
  revert Hdb Hor Hrep.
  match goal with |- context [validate_items env ?l ?t ?s1] =>
    destruct (validate_items env l t s1) as [s2 [[r|[t' v]]|e]] end.
  all: cbn; intros Hdb Hor Hrep.
  - destruct Hor as [[e' He]|[msg Hm]]; [discriminate|]. injection Hm as ->.
    split; [exact Hdb|]. split; [right|intros _]; eexists; split; reflexivity.
  - destruct Hor as [[e' He]|[msg Hm]]; discriminate.
  - split; [exact Hdb|]. split; [left; eexists; reflexivity|].
    intros Hc. destruct (Hrep Hc) as [msg Hm]. discriminate.
Qed.

Lemma shift_stock_ext f g ps :
  (forall x, f x = g x) -> shift_stock f ps = shift_stock g ps.
Proof. intros H. unfold shift_stock. apply map_ext. intros r. by rewrite H. Qed.

Lemma shift_stock_zero ps : shift_stock (fun _ => 0) ps = ps.
Proof.
  unfold shift_stock. induction ps as [|[p pr q] ps IH]; [reflexivity|].
  simpl. rewrite IH. do 2 f_equal. lia.
Qed.

Lemma shift_stock_shift f g ps :
  shift_stock f (shift_stock g ps) = shift_stock (fun x => g x + f x) ps.
Proof.
  unfold shift_stock. rewrite map_map. apply map_ext. intros r. simpl. f_equal. lia.
Qed.

Lemma add_stock_shift p d ps :
  add_stock p d ps = shift_stock (fun x => if String.eqb x p then d else 0) ps.
Proof.
  unfold add_stock, shift_stock. apply map_ext. intros [x pr q]. simpl.
  destruct (String.eqb x p); [reflexivity|]. f_equal. lia.
Qed.

Lemma persist_items_ok env nid (v : list (OrderItem * F64)) :
  forall s s', persist_items env nid v s = (s', Ok tt) ->
  orders (db s') = orders (db s) /\ clock (db s') = clock (db s) /\
  (exists rows, order_items (db s') = (order_items (db s) ++ rows)%list /\
     Forall (fun r => order_id r = nid) rows /\
     map (fun r => (product_id r, quantity r)) rows =
       map (fun iv => (item_product_id (fst iv), item_quantity (fst iv))) v) /\
  products (db s') = shift_stock (fun p => - ordered_qty (map fst v) p) (products (db s)) /\
  (exists ev, trace s' = (trace s ++ ev)%list /\ List.filter is_catalog_rpc ev = [] /\
     List.filter is_stock_update ev =
       map (fun iv => SqlUpdateStock (item_product_id (fst iv)) (- item_quantity (fst iv))) v).
Proof.
  induction v as [|[it up] rest IH]; intros s s' H.
  - simpl in H. inversion H; subst.
    split; [reflexivity|]. split; [reflexivity|].
    split; [exists []; rewrite app_nil_r; split; [reflexivity|split; constructor]|].
    split.
    + rewrite (shift_stock_ext _ (fun _ => 0)) by (intros; reflexivity).
      by rewrite shift_stock_zero.
    + exists []. rewrite app_nil_r. auto.
  - simpl in H. unfold new_uuid, ok_or, insert_order_item, update_stock,
      bind, emit, read_db, lift, write_db, ret in H. cbn -[persist_items add_stock] in H.
    destruct (decimal_from_f64_retain up) as [dp|]; cbn -[persist_items add_stock] in H; [|discriminate].
    match type of H with context [existsb ?f ?l] => destruct (existsb f l) end;
      cbn -[persist_items add_stock] in H; [discriminate|].
    apply IH in H as (Ho & Hc & (rows & Hi & Hf & Hm) & Hp & (ev & Ht & Hcat & Hst)).
    cbn -[shift_stock add_stock ordered_qty] in *.
    split; [exact Ho|]. split; [exact Hc|].
    split.
    { eexists. split; [rewrite Hi, <- app_assoc; reflexivity|].
      split; [constructor; [reflexivity|exact Hf]|]. simpl. by rewrite Hm. }
    split.
    { rewrite Hp, add_stock_shift, shift_stock_shift. apply shift_stock_ext.
      intros x. simpl. destruct (String.eqb (item_product_id it) x) eqn:E1;
        destruct (String.eqb x (item_product_id it)) eqn:E2; try lia.
      - apply String.eqb_eq in E1. subst. by rewrite String.eqb_refl in E2.
      - apply String.eqb_eq in E2. subst. by rewrite String.eqb_refl in E1. }
    eexists. split; [rewrite Ht; rewrite <- !app_assoc; reflexivity|].
    simpl. rewrite Hcat, Hst. split; reflexivity.
Qed.

Lemma validate_items_inl env items :
  forall t s s' resp, validate_items env items t s = (s', Ok (inl resp)) ->
  exists msg, resp = create_reject msg.
Proof.
  induction items as [|it rest IH]; intros t s s' resp H; simpl in H.
  - inversion H.
  - destruct (item_quantity it <=? 0).
    { inversion H. eauto. }
    unfold check_product_availability, get_product_price, select_price,
      bind, emit, lift, read_db, ret in H. cbn -[validate_items] in H.
    destruct (rpc_check_availability env _ _) as [[|]|e]; cbn -[validate_items] in H;
      [|inversion H; eauto|discriminate].
    destruct (find _ _) as [p|]; cbn -[validate_items] in H; [|inversion H; eauto].
    match type of H with context [validate_items env rest ?t1 ?s1] =>
      destruct (validate_items env rest t1 s1) as [s2 [[r|[t' v]]|e]] eqn:Ev end;
      inversion H; subst. eauto.
Qed.

Lemma validate_items_ok env items :
  forall t s s' t' v, validate_items env items t s = (s', Ok (inr (t', v))) ->
  map fst v = items /\ db s' = db s /\ uuids_drawn s' = uuids_drawn s /\
  trace s' = (trace s ++ validation_events items)%list.
Proof.
  induction items as [|it rest IH]; intros t s s' t' v H; simpl in H.
  - inversion H; subst. simpl. rewrite app_nil_r. auto.
  - destruct (item_quantity it <=? 0); [discriminate|].
    unfold check_product_availability, get_product_price, select_price,
      bind, emit, lift, read_db, ret in H. cbn -[validate_items] in H.
    destruct (rpc_check_availability env _ _) as [[|]|e]; cbn -[validate_items] in H;
      [|discriminate|discriminate].
    destruct (find _ _) as [p|]; cbn -[validate_items] in H; [|discriminate].
    match type of H with context [validate_items env rest ?t1 ?s1] =>
      destruct (validate_items env rest t1 s1) as [s2 [[r|[t2 v2]]|e]] eqn:Ev end;
      inversion H; subst.
    apply IH in Ev as (Hm & Hd & Hu & Ht). cbn in *.
    rewrite Hm, Hd, Hu, Ht. rewrite <- !app_assoc. auto.
Qed.

Lemma fetch_one_order_trace id s s' o :
  fetch_one_order id s = (s', Ok o) ->
  db s' = db s /\ trace s' = (trace s ++ [SqlSelectOrder id])%list /\
  find_order id (orders (db s)) = Some o.
Proof.
  unfold fetch_one_order, select_order, bind, emit, read_db, ret, lift. cbn.
  destruct (find_order id (orders (db s))); intros H; inversion H; subst; auto.
Qed.

Lemma db_order_to_proto_trace env o s s' po :
  db_order_to_proto env o s = (s', Ok po) ->
  db s' = db s /\ exists ids,
  trace s' = (trace s ++ [SqlSelectOrderItems (oid o); RpcGetProductsByIds ids])%list.
Proof.
  unfold db_order_to_proto, get_order_items, select_order_items, get_products_by_ids,
    bind, emit, read_db, ret, lift. cbn.
  match goal with |- context [rpc_get_products_by_ids env ?l] =>
    destruct (rpc_get_products_by_ids env l) end;
  intros H; inversion H; subst; cbn. split; [reflexivity|].
  eexists. rewrite <- !app_assoc. reflexivity.
Qed.

Lemma existsb_find_none {A} (f : A -> bool) l : existsb f l = false -> find f l = None.
Proof.
  induction l as [|x l IH]; simpl; [reflexivity|].
  destruct (f x); [discriminate|exact IH].
Qed.

Lemma create_order_success env (req : CreateOrderRequest) (s s1 : St) r1 :
  create_order env req s = (s1, Ok r1) -> cres_success r1 = true ->
  find_order (cres_order_id r1) (orders (db s)) = None /\
  (exists row, orders (db s1) = (orders (db s) ++ [row])%list /\
     oid row = cres_order_id r1 /\ user_id row = cr_user_id req /\
     status row = "PENDING") /\
  (exists rows, order_items (db s1) = (order_items (db s) ++ rows)%list /\
     Forall (fun r => order_id r = cres_order_id r1) rows /\
     map (fun r => (product_id r, quantity r)) rows =
       map (fun it => (item_product_id it, item_quantity it)) (cr_items req)) /\
  products (db s1) = shift_stock (fun p => - ordered_qty (cr_items req) p) (products (db s)) /\
  clock (db s1) = clock (db s) /\
  (exists ev, trace s1 = (trace s ++ [RpcVerify (cr_user_id req)] ++
       validation_events (cr_items req) ++ ev)%list /\
     List.filter is_stock_update ev =
       map (fun it => SqlUpdateStock (item_product_id it) (- item_quantity it))
           (cr_items req) /\
     exists ids, List.filter is_catalog_rpc ev = [RpcGetProductsByIds ids]).
Proof.
  intros H Hsucc. unfold create_order in H.
  destruct (String.eqb (cr_user_id req) "").
  { inversion H; subst. discriminate. }
  destruct (cr_items req) as [|it0 items0] eqn:Hi.
  { inversion H; subst. discriminate. }
  cbv beta iota in H. rewrite <- Hi in *.
  apply bind_inv in H as [(e & _ & He)|(s2 & verified & Hv & H)]; [discriminate|].
  unfold verify_user_by_id, bind, emit, lift in Hv. cbn in Hv.
  destruct (rpc_verify env (cr_user_id req)) as [b|e]; inversion Hv; subst; clear Hv.
  destruct verified; cbv beta iota in H; simpl negb in H; cbv beta iota in H.
  2:{ inversion H; subst. discriminate. }
  apply bind_inv in H as [(e & _ & He)|(s3 & vres & Hval & H)]; [discriminate|].
  destruct vres as [resp|[t v]].
  { destruct (validate_items_inl _ _ _ _ _ _ Hval) as [msg ->].
    inversion H; subst. discriminate. }
  apply validate_items_ok in Hval as (Hmap & Hd3 & Hu3 & Ht3). cbn in Hd3, Hu3, Ht3.
  apply bind_inv in H as [(e & _ & He)|(s4 & nid & Htx & H)]; [discriminate|].
  unfold with_tx in Htx.
  destruct ((emit SqlBegin ;;; _) s3) as [s4' [a|e]] eqn:Eb; inversion Htx; subst; clear Htx.
  unfold new_uuid, ok_or, insert_order, commit, bind, emit, read_db, lift, write_db, ret in Eb.
  cbn -[persist_items] in Eb.
  destruct (decimal_from_f64_retain t) as [td|]; cbn -[persist_items] in Eb; [|discriminate].
  destruct (existsb _ _) eqn:Hex; cbn -[persist_items] in Eb; [discriminate|].
  match type of Eb with context [persist_items env ?i v ?s5] =>
    destruct (persist_items env i v s5) as [s6 [[]|e]] eqn:Ep end; [|discriminate].
  inversion Eb; subst; clear Eb.
  apply persist_items_ok in Ep as (Ho6 & Hc6 & (rows & Hi6 & Hf6 & Hm6) & Hp6 & (ev6 & Ht6 & Hcat6 & Hst6)).
  cbn in Ho6, Hc6, Hi6, Hp6, Ht6.
  set (nid := uuid_new_v4 env (uuids_drawn s3)) in *.
  (* after the commit: read-only re-fetch and re-hydration *)
  apply bind_inv in H as [(e & _ & He)|(s7 & o7 & Hf7 & H)]; [discriminate|].
  apply bind_inv in H as [(e & _ & He)|(s8 & po & Hp8 & H)]; [discriminate|].
  inversion H; subst; clear H. cbn.
  apply fetch_one_order_trace in Hf7 as (Hd7 & Ht7 & _).
  apply db_order_to_proto_trace in Hp8 as (Hd8 & ids & Ht8).
  cbn in Hd7, Ht7.
  assert (Hs1 : db s1 = db s6) by congruence.
  rewrite Hs1.
  split; [unfold find_order; rewrite <- Hd3; by apply existsb_find_none|].
  split; [eexists; rewrite Ho6, Hd3; split; [reflexivity|]; auto|].
  split.
  { exists rows. rewrite Hi6, Hd3. split; [reflexivity|]. split; [exact Hf6|].
    rewrite Hm6, <- Hmap, map_map. reflexivity. }
  split; [rewrite Hp6, Hmap, Hd3; reflexivity|].
  split; [rewrite Hc6, Hd3; reflexivity|].
  exists ([SqlBegin; SqlInsertOrder nid] ++ ev6 ++
          [SqlCommit; SqlSelectOrder nid; SqlSelectOrderItems (oid o7);
           RpcGetProductsByIds ids])%list.
  split.
  { rewrite Ht8, Ht7, Ht6, Ht3. rewrite <- !app_assoc. reflexivity. }
  rewrite !List.filter_app. rewrite Hst6, Hcat6, <- Hmap, map_map.
  split; [cbn; rewrite app_nil_r; reflexivity|].
  exists ids. reflexivity.
Qed.


Lemma restore_inventory_effect (items : list DbOrderItem) :
  forall s s', restore_inventory items s = (s', Ok tt) ->
  orders (db s') = orders (db s) /\ order_items (db s') = order_items (db s) /\
  clock (db s') = clock (db s) /\
  products (db s') = shift_stock (line_qty items) (products (db s)).
Proof.
  induction items as [|i rest IH]; intros s s' H; simpl in H.
  - inversion H; subst. split; [reflexivity|]. split; [reflexivity|].
    split; [reflexivity|].
    rewrite (shift_stock_ext _ (fun _ => 0)) by (intros; reflexivity).
    by rewrite shift_stock_zero.
  - unfold update_stock, bind, emit, read_db, write_db in H.
    cbn -[restore_inventory add_stock] in H.
    apply IH in H as (Ho & Hi & Hc & Hp). cbn -[add_stock shift_stock] in *.
    split; [exact Ho|]. split; [exact Hi|]. split; [exact Hc|].
    rewrite Hp, add_stock_shift, shift_stock_shift. apply shift_stock_ext.
    intros x. simpl. destruct (String.eqb (product_id i) x) eqn:E1;
      destruct (String.eqb x (product_id i)) eqn:E2; try lia.
    + apply String.eqb_eq in E1. subst. by rewrite String.eqb_refl in E2.
    + apply String.eqb_eq in E2. subst. by rewrite String.eqb_refl in E1.
Qed.


Lemma cancel_order_success (req : CancelOrderRequest) s s' r :
  cancel_order req s = (s', Ok r) -> xres_success r = true ->
  cancel_rejects req (db s) = false /\
  orders (db s') = map (fun o => if String.eqb (oid o) (xr_order_id req)
                                 then cancelled_row (clock (db s)) o else o) (orders (db s)) /\
  order_items (db s') = order_items (db s) /\
  products (db s') =
    shift_stock (line_qty (List.filter (fun i => String.eqb (order_id i) (xr_order_id req))
                                       (order_items (db s))))
                (products (db s)).
Proof.
  intros H Hs. unfold cancel_order, cancel_rejects in *.
  destruct (String.eqb (xr_order_id req) "") eqn:E.
  { inversion H; subst. discriminate. }
  unfold with_tx, bind, emit, select_order, select_order_items, read_db, ret,
    rollback, write_db, commit, lift in H. cbn -[restore_inventory] in H.
  destruct (find_order (xr_order_id req) (orders (db s))) as [o|] eqn:Ho;
    cbn -[restore_inventory] in H; [|inversion H; subst; discriminate].
  destruct (negb _ && negb _) eqn:E1; cbn -[restore_inventory] in H;
    [inversion H; subst; discriminate|].
  destruct (String.eqb (status o) "CANCELLED") eqn:E2; cbn -[restore_inventory] in H;
    [inversion H; subst; discriminate|].
  destruct (String.eqb (status o) "DELIVERED") eqn:E3; cbn -[restore_inventory] in H;
    [inversion H; subst; discriminate|].
  match type of H with context [restore_inventory ?l ?s0] =>
    destruct (restore_inventory_ok l s0) as [s1 Hr]; rewrite Hr in H;
    apply restore_inventory_effect in Hr as (Ho1 & Hi1 & Hc1 & Hp1) end.
  cbn -[shift_stock line_qty] in *. inversion H; subst; clear H. cbn -[shift_stock line_qty].
  split; [reflexivity|].
  rewrite Ho1, Hi1, Hc1, Hp1. auto.
Qed.

Lemma cancel_rejected_core (req : CancelOrderRequest) (s : St) :
  cancel_rejects req (db s) = true ->
  exists msg s', cancel_order req s = (s', Ok (cancel_reject msg)) /\ db s' = db s.
Proof.
  unfold cancel_rejects, cancel_order. intros H.
  destruct (String.eqb (xr_order_id req) "") eqn:E; [do 2 eexists; split; reflexivity|].
  simpl in H. run_m.
  destruct (find_order (xr_order_id req) (orders (db s))) as [o|] eqn:Ho; cbn;
    [|do 2 eexists; split; reflexivity].
  destruct (negb _ && negb _) eqn:E1; cbn; [do 2 eexists; split; reflexivity|].
  destruct (String.eqb (status o) "CANCELLED") eqn:E2; cbn;
    [do 2 eexists; split; reflexivity|].
  destruct (String.eqb (status o) "DELIVERED") eqn:E3; cbn; [|discriminate].
  do 2 eexists; split; reflexivity.
Qed.

Lemma filter_all_true {A} (f : A -> bool) l :
  Forall (fun x => f x = true) l -> List.filter f l = l.
Proof. induction 1 as [|x l Hx _ IH]; simpl; [reflexivity|]. by rewrite Hx, IH. Qed.

Lemma filter_all_false {A} (f : A -> bool) l :
  (forall x, In x l -> f x = false) -> List.filter f l = [].
Proof.
  induction l as [|x l IH]; intros H; simpl; [reflexivity|].
  rewrite (H x (or_introl eq_refl)). apply IH. intros y Hy. apply H. by right.
Qed.

Lemma line_qty_ordered_qty (rows : list DbOrderItem) (items : list OrderItem) :
  map (fun r => (product_id r, quantity r)) rows =
    map (fun it => (item_product_id it, item_quantity it)) items ->
  forall p, line_qty rows p = ordered_qty items p.
Proof.
  revert items. induction rows as [|r rows IH]; intros [|it items] H p;
    try discriminate; [reflexivity|].
  simpl in H. injection H as Hp Hq Hm. simpl. rewrite Hp, Hq, (IH items Hm p). reflexivity.
Qed.

Lemma find_order_app_fresh id os (row : DbOrder) (f : DbOrder -> DbOrder) :
  find_order id os = None -> oid row = id -> (forall o, oid (f o) = oid o) ->
  find_order id (map (fun o => if String.eqb (oid o) id then f o else o) (os ++ [row])) =
    Some (f row).
Proof.
  intros Hn Hr Hf. unfold find_order in *. induction os as [|o os IH]; simpl in *.
  - by rewrite Hr, String.eqb_refl, Hf, Hr, String.eqb_refl.
  - destruct (String.eqb (oid o) id) eqn:E; [discriminate|]. rewrite E. exact (IH Hn).
Qed.

(** C3: a successful CreateOrder takes each ordered quantity off its
    product's stock; a later successful CancelOrder of that order puts
    the same quantities back, so the stock is exactly as before the
    create; a further cancellation is rejected and changes nothing. *)
Theorem create_then_cancel_restores_stock env (req : CreateOrderRequest) (u : string)
    (s s1 s2 : St) r1 r2 :
  items_reference_orders (db s) ->
  create_order env req s = (s1, Ok r1) -> cres_success r1 = true ->
  cancel_order {| xr_order_id := cres_order_id r1; xr_user_id := u |} s1 = (s2, Ok r2) ->
  xres_success r2 = true ->
  products (db s1) = shift_stock (fun p => - ordered_qty (cr_items req) p) (products (db s)) /\
  products (db s2) = shift_stock (ordered_qty (cr_items req)) (products (db s1)) /\
  products (db s2) = products (db s) /\
  (forall u' s3 r3,
     cancel_order {| xr_order_id := cres_order_id r1; xr_user_id := u' |} s2 = (s3, r3) ->
     db s3 = db s2 /\ exists msg, r3 = Ok (cancel_reject msg)).
Proof.
  intros Hwf Hc Hcs Hx Hxs.
  destruct (create_order_success env req s s1 r1 Hc Hcs)
    as (Hnone & (row & Ho1 & Hoid & _ & _) & (rows & Hi1 & Hf & Hm) & Hp1 & _ & _).
  destruct (cancel_order_success _ s1 s2 r2 Hx Hxs) as (_ & Ho2 & _ & Hp2).
  cbn [xr_order_id] in Ho2, Hp2.
  assert (Hrows : List.filter (fun i => String.eqb (order_id i) (cres_order_id r1))
                    (order_items (db s1)) = rows).
  { rewrite Hi1, List.filter_app.
    assert (Hold : List.filter (fun i => String.eqb (order_id i) (cres_order_id r1))
                     (order_items (db s)) = []).
    { apply filter_all_false. intros i Hin. destruct (Hwf i Hin) as (o & Ho & Hid).
      destruct (String.eqb (order_id i) (cres_order_id r1)) eqn:E; [|reflexivity].
      apply String.eqb_eq in E. unfold find_order in Hnone.
      pose proof (find_none _ _ Hnone o Ho) as Hfo. simpl in Hfo.
      by rewrite Hid, E, String.eqb_refl in Hfo. }
    rewrite Hold, filter_all_true; [reflexivity|].
    eapply Forall_impl; [exact Hf|]. intros r Hr. simpl. by rewrite Hr, String.eqb_refl. }
  rewrite Hrows in Hp2.
  assert (Hp2' : products (db s2) = shift_stock (ordered_qty (cr_items req)) (products (db s1))).
  { rewrite Hp2. apply shift_stock_ext. apply line_qty_ordered_qty, Hm. }
  split; [exact Hp1|]. split; [exact Hp2'|]. split.
  { rewrite Hp2', Hp1, shift_stock_shift.
    rewrite (shift_stock_ext _ (fun _ => 0)) by (intros; lia). apply shift_stock_zero. }
  intros u' s3 r3 H3.
  assert (Hrej : cancel_rejects {| xr_order_id := cres_order_id r1; xr_user_id := u' |}
                   (db s2) = true).
  { unfold cancel_rejects. cbn [xr_order_id xr_user_id].
    rewrite Ho2, Ho1, (find_order_app_fresh _ _ row (cancelled_row (clock (db s1))) Hnone Hoid)
      by reflexivity.
    simpl. rewrite !orb_true_r. reflexivity. }
  destruct (cancel_rejected_core _ s2 Hrej) as (msg & s3' & Hc3 & Hd3).
  rewrite Hc3 in H3. inversion H3; subst. eauto.
Qed.


Lemma in_insert_by_created_desc x o l :
  In x (insert_by_created_desc o l) <-> x = o \/ In x l.
Proof.
  induction l as [|o' l IH]; simpl; [intuition congruence|].
  destruct (created_at o' <? created_at o); simpl; [intuition congruence|].
  rewrite IH. intuition congruence.
Qed.

Lemma in_sort_by_created_desc x l : In x (sort_by_created_desc l) <-> In x l.
Proof.
  induction l as [|o l IH]; simpl; [tauto|].
  rewrite in_insert_by_created_desc, IH. intuition congruence.
Qed.

Lemma length_sort_by_created_desc l : length (sort_by_created_desc l) = length l.
Proof.
  induction l as [|o l IH]; simpl; [reflexivity|].
  assert (forall m, length (insert_by_created_desc o m) = S (length m)) as Hi.
  { induction m as [|o' m IHm]; simpl; [reflexivity|].
    destruct (created_at o' <? created_at o); simpl; [reflexivity|]. rewrite IHm. reflexivity. }
  unfold sort_by_created_desc in *. rewrite Hi, IH. reflexivity.
Qed.

Lemma db_order_to_proto_fields env o s s' po :
  db_order_to_proto env o s = (s', Ok po) ->
  o_order_id po = oid o /\ o_status po = OrderStatus_to_i32 (status_to_proto (status o)).
Proof.
  unfold db_order_to_proto, get_order_items, select_order_items, get_products_by_ids,
    bind, emit, read_db, ret, lift. cbn.
  match goal with |- context [rpc_get_products_by_ids env ?l] =>
    destruct (rpc_get_products_by_ids env l) end;
  intros H; inversion H; subst; cbn; auto.
Qed.

Lemma map_m_db_order_to_proto env rows :
  forall s s' pos, map_m (db_order_to_proto env) rows s = (s', Ok pos) ->
  db s' = db s /\
  Forall2 (fun o po => o_order_id po = oid o /\
                       o_status po = OrderStatus_to_i32 (status_to_proto (status o)))
          rows pos.
Proof.
  induction rows as [|o rows IH]; intros s s' pos H; simpl in H.
  - inversion H; subst. auto.
  - apply bind_inv in H as [(e & _ & He)|(s1 & po & Hp & H)]; [discriminate|].
    apply bind_inv in H as [(e & _ & He)|(s2 & pos' & Hr & H)]; [discriminate|].
    inversion H; subst; clear H.
    pose proof (db_order_to_proto_fields _ _ _ _ _ Hp) as Hpo.
    apply db_order_to_proto_trace in Hp as (Hd1 & _).
    apply IH in Hr as (Hd2 & Hf).
    split; [congruence|]. constructor; assumption.
Qed.

Lemma status_to_proto_to_string st : status_to_proto (status_to_string st) = st.
Proof. destruct st; reflexivity. Qed.

(** What a successful ListOrders reads: a window of the rows kept by the
    filter, sorted, and the count of all kept rows. *)
Lemma list_orders_ok env (req : ListOrdersRequest) s s' r :
  list_orders env req s = (s', Ok r) ->
  let keep o := if lr_status req =? 0 then true
                else String.eqb (status o) (status_to_string (requested_status (lr_status req))) in
  lres_total_count r = wrap_i32 (Z.of_nat (length (List.filter keep (orders (db s))))) /\
  exists n m,
  (lr_page req <= 1 -> m = 0%nat) /\
  (1 <= lr_page_size req <= 100 -> n = Z.to_nat (lr_page_size req)) /\
  Forall2 (fun o po => o_order_id po = oid o /\
                       o_status po = OrderStatus_to_i32 (status_to_proto (status o)))
    (firstn n (skipn m (sort_by_created_desc (List.filter keep (orders (db s))))))
    (lres_orders r).
Proof.
  intros H keep. unfold list_orders in H.
  apply bind_inv in H as [(e & _ & He)|(s1 & rows & Hrows & H)]; [discriminate|].
  apply bind_inv in H as [(e & _ & He)|(s2 & tc & Htc & H)]; [discriminate|].
  apply bind_inv in H as [(e & _ & He)|(s3 & pos & Hpos & H)]; [discriminate|].
  inversion H; subst; clear H. cbn.
  unfold select_orders_page, bind, emit, read_db, ret, lift in Hrows. cbn in Hrows.
  match type of Hrows with context [if ?c then _ else _] => destruct c end;
  inversion Hrows; subst; clear Hrows; cbn in *.
  unfold count_orders, bind, emit, read_db, ret in Htc. cbn in Htc.
  inversion Htc; subst; clear Htc. cbn in *.
  apply map_m_db_order_to_proto in Hpos as (_ & Hf).
  split; [reflexivity|]. do 2 eexists. split; [|split; [|exact Hf]].
  - intros Hp. destruct (lr_page req <=? 0) eqn:E.
    + reflexivity.
    + apply Z.leb_gt in E. replace (lr_page req) with 1 by lia. reflexivity.
  - intros Hs. replace ((lr_page_size req <=? 0) || (100 <? lr_page_size req)) with false.
    + reflexivity.
    + symmetry. apply orb_false_iff. split; [apply Z.leb_gt|apply Z.ltb_ge]; lia.
Qed.

Lemma Forall2_in_r' {A B} (R : A -> B -> Prop) l k y :
  Forall2 R l k -> In y k -> exists x, In x l /\ R x y.
Proof.
  induction 1 as [|x y' l k Hr _ IH]; simpl; [tauto|].
  intros [<-|Hy]; [eauto|]. destruct (IH Hy) as (x' & ? & ?); eauto.
Qed.

Lemma Forall2_in_l' {A B} (R : A -> B -> Prop) l k x :
  Forall2 R l k -> In x l -> exists y, In y k /\ R x y.
Proof.
  induction 1 as [|x' y l k Hr _ IH]; simpl; [tauto|].
  intros [<-|Hx]; [eauto|]. destruct (IH Hx) as (y' & ? & ?); eauto.
Qed.

Lemma in_window {A} (x : A) n m l : In x (firstn n (skipn m l)) -> In x l.
Proof.
  intros H. rewrite <- (firstn_skipn m l). apply in_or_app. right.
  rewrite <- (firstn_skipn n (skipn m l)). apply in_or_app. left. exact H.
Qed.

Lemma firstn_skipn_0_all {A} n (l : list A) : (length l <= n)%nat -> firstn n (skipn 0 l) = l.
Proof. intros H. apply firstn_all2. exact H. Qed.

(** C7 (amended): the status value 0, which is the wire value of
    [Pending], means every status: [total_count] is the number of all
    stored orders and, on a first page large enough, every stored order is
    returned.  Any other value [v] keeps only the orders whose status is
    [requested_status v] (an unknown [v] reads as [Pending]): each
    returned order has that status and [total_count] counts those orders,
    whatever the page. *)
Theorem list_orders_status_filter env (req : ListOrdersRequest) s s' r :
  list_orders env req s = (s', Ok r) ->
  OrderStatus_to_i32 Pending = 0 /\
  (lr_status req = 0 ->
     lres_total_count r = wrap_i32 (Z.of_nat (length (orders (db s)))) /\
     (forall po, In po (lres_orders r) -> exists o, In o (orders (db s)) /\
        o_order_id po = oid o /\ o_status po = OrderStatus_to_i32 (status_to_proto (status o))) /\
     (lr_page req <= 1 -> 1 <= lr_page_size req <= 100 ->
        Z.of_nat (length (orders (db s))) <= lr_page_size req ->
        forall o, In o (orders (db s)) -> exists po, In po (lres_orders r) /\
          o_order_id po = oid o /\ o_status po = OrderStatus_to_i32 (status_to_proto (status o)))) /\
  (lr_status req <> 0 ->
     lres_total_count r = wrap_i32 (Z.of_nat (length (List.filter
        (fun o => String.eqb (status o) (status_to_string (requested_status (lr_status req))))
        (orders (db s))))) /\
     (forall po, In po (lres_orders r) ->
        o_status po = OrderStatus_to_i32 (requested_status (lr_status req)) /\
        exists o, In o (orders (db s)) /\ o_order_id po = oid o /\
          status o = status_to_string (requested_status (lr_status req)))).
Proof.
  intros H. apply list_orders_ok in H as (Htot & n & m & Hm & Hn & Hf).
  split; [reflexivity|]. split.
  - intros H0. rewrite H0 in *. cbn in Htot, Hf. rewrite filter_all_true in Htot, Hf
      by (apply Forall_forall; intros; reflexivity).
    split; [exact Htot|]. split.
    + intros po Hpo. destruct (Forall2_in_r' _ _ _ _ Hf Hpo) as (o & Ho & Hop).
      exists o. split; [|exact Hop].
      apply in_sort_by_created_desc. exact (in_window _ _ _ _ Ho).
    + intros Hp Hs Hl o Ho. rewrite (Hm Hp), (Hn Hs), firstn_skipn_0_all in Hf.
      * destruct (Forall2_in_l' _ _ _ _ Hf (proj2 (in_sort_by_created_desc o _) Ho))
          as (po & Hpo & Hop). eauto.
      * rewrite length_sort_by_created_desc. lia.
  - intros H0. apply Z.eqb_neq in H0. rewrite H0 in *. cbn in Htot, Hf.
    split; [exact Htot|]. intros po Hpo.
    destruct (Forall2_in_r' _ _ _ _ Hf Hpo) as (o & Ho & Hid & Hst).
    apply in_window, in_sort_by_created_desc, filter_In in Ho as (Ho & Hk).
    apply String.eqb_eq in Hk. rewrite Hst, Hk, status_to_proto_to_string.
    split; [reflexivity|]. eauto.
Qed.


Lemma validation_events_catalog items :
  List.filter is_catalog_rpc (validation_events items) =
  map (fun it => RpcCheckAvailability (item_product_id it) (item_quantity it)) items.
Proof. induction items as [|it items IH]; simpl; [reflexivity|]. by rewrite IH. Qed.

(** C9 (amended): on a successful CreateOrder each item costs one round
    trip to the product service (the availability check) followed by a
    direct SQL read of its price; the stock decrements are SQL updates,
    and the only other product-service call is the one batch lookup of
    the names when the created order is converted. *)
Theorem create_order_catalog_access env (req : CreateOrderRequest) (s s1 : St) r1 :
  create_order env req s = (s1, Ok r1) -> cres_success r1 = true ->
  (exists ev, trace s1 = (trace s ++ [RpcVerify (cr_user_id req)] ++
       flat_map (fun it => [RpcCheckAvailability (item_product_id it) (item_quantity it);
                            SqlSelectPrice (item_product_id it)]) (cr_items req) ++ ev)%list /\
     List.filter is_stock_update ev =
       map (fun it => SqlUpdateStock (item_product_id it) (- item_quantity it))
           (cr_items req)) /\
  exists ids, List.filter is_catalog_rpc (trace s1) =
    (List.filter is_catalog_rpc (trace s) ++
     map (fun it => RpcCheckAvailability (item_product_id it) (item_quantity it)) (cr_items req) ++
     [RpcGetProductsByIds ids])%list.
Proof.
  intros H Hs.
  destruct (create_order_success env req s s1 r1 H Hs)
    as (_ & _ & _ & _ & _ & ev & Ht & Hsu & ids & Hc).
  split; [exists ev; split; [exact Ht|exact Hsu]|].
  exists ids. rewrite Ht, !List.filter_app, validation_events_catalog, Hc. reflexivity.
Qed.

(** C6: an UpdateOrder of an order with an empty shipping address
    writes [NULL] into [shipping_address] (it does not keep the stored
    one), overwrites the status, stamps [updated_at], and leaves every
    other column, the line items and the stock unchanged. *)
Theorem update_order_empty_address_clears env (req : UpdateOrderRequest) (s : St) :
  ur_order_id req <> "" -> ur_shipping_address req = "" ->
  orders (db (fst (update_order env req s))) =
    map (fun o => if String.eqb (oid o) (ur_order_id req)
                  then {| oid := oid o; user_id := user_id o; total_amount := total_amount o;
                          status := status_to_string (requested_status (ur_status req));
                          shipping_address := None;
                          created_at := created_at o; updated_at := clock (db s) |}
                  else o) (orders (db s)) /\
  order_items (db (fst (update_order env req s))) = order_items (db s) /\
  products (db (fst (update_order env req s))) = products (db s).
Proof.
  intros Hid Ha. apply String.eqb_neq in Hid. rewrite (update_order_db env req s Hid). cbn.
  split; [|split; reflexivity].
  apply map_ext. intros o. destruct (String.eqb (oid o) (ur_order_id req)); [|reflexivity].
  unfold updated_row. rewrite Ha. reflexivity.
Qed.

End Facts.

Section Examples.
Import OrderExamples.
#[local] Existing Instance cents_model.

Lemma create_order_rejects_without_persisting_witness : validation_fails env0 (create_req 0) (db (store0 [])) /\
  db (fst (create_order env0 (create_req 0) (store0 []))) = db (store0 []).
Proof.
  split.
  - do 3 right. constructor. left. simpl. lia.
  - apply (create_order_rejects_without_persisting env0 (create_req 0) (store0 [])).
    do 3 right. constructor. left. simpl. lia.
Defined.

Lemma create_then_cancel_restores_stock_witness : products (db cancelled0_state) = products (db (store0 [])).
Proof.
  apply (create_then_cancel_restores_stock env0 (create_req 2) "U1" (store0 [])
           created0_state cancelled0_state created0_resp cancelled0_resp).
  - intros i Hi. destruct Hi.
  - vm_compute. reflexivity.
  - vm_compute. reflexivity.
  - vm_compute. reflexivity.
  - vm_compute. reflexivity.
Defined.

Lemma cancel_rejection_rolls_back_witness : exists msg, cancel_order {| xr_order_id := "o1"; xr_user_id := "U1" |}
    (store0 [order_row "o1" "DELIVERED" None]) =
  (fst (cancel_order {| xr_order_id := "o1"; xr_user_id := "U1" |}
         (store0 [order_row "o1" "DELIVERED" None])), Ok (cancel_reject msg)).
Proof.
  destruct (proj1 (cancel_rejection_rolls_back {| xr_order_id := "o1"; xr_user_id := "U1" |}
                     (store0 [order_row "o1" "DELIVERED" None])) ltac:(vm_compute; reflexivity))
    as (msg & s' & H & _).
  exists msg. rewrite H. reflexivity.
Defined.

Lemma update_unknown_status_sets_pending_witness : exists o, In o (orders (db (fst (update_order env0
    {| ur_order_id := "o1"; ur_status := 7; ur_shipping_address := "Elm St 2" |}
    (store0 [order_row "o1" "SHIPPED" (Some "Main St 1")]))))) /\
  oid o = "o1" /\ status o = "PENDING".
Proof.
  destruct (update_unknown_status_sets_pending env0
    {| ur_order_id := "o1"; ur_status := 7; ur_shipping_address := "Elm St 2" |}
    (store0 [order_row "o1" "SHIPPED" (Some "Main St 1")]) ltac:(discriminate)
    ltac:(reflexivity) ltac:(eexists; split; [left; reflexivity|reflexivity]))
    as (Hall & (o & Ho & Hid) & _).
  exists o. split; [exact Ho|]. split; [exact Hid|]. exact (Hall o Ho Hid).
Defined.

Lemma update_order_empty_address_clears_witness : shipping_address (order_row "o1" "PENDING" (Some "Main St 1")) = Some "Main St 1" /\
  orders (db (fst (update_order env0
    {| ur_order_id := "o1"; ur_status := 2; ur_shipping_address := "" |}
    (store0 [order_row "o1" "PENDING" (Some "Main St 1")])))) =
  [{| oid := "o1"; user_id := "U1"; total_amount := 1000; status := "PROCESSING";
      shipping_address := None; created_at := 50; updated_at := 100 |}].
Proof.
  split; [reflexivity|].
  rewrite (proj1 (update_order_empty_address_clears env0
    {| ur_order_id := "o1"; ur_status := 2; ur_shipping_address := "" |}
    (store0 [order_row "o1" "PENDING" (Some "Main St 1")]) ltac:(discriminate) ltac:(reflexivity))).
  vm_compute. reflexivity.
Defined.

(** C7 (as stated, refuted): [Pending] cannot be asked for on its own; its
    wire value 0 lists a CONFIRMED order too. *)
Lemma list_orders_pending_means_all :
  OrderStatus_to_i32 Pending = 0 /\
  match snd (list_orders env0 {| lr_page := 1; lr_page_size := 10;
                                 lr_status := OrderStatus_to_i32 Pending |}
                (store0 [order_row "o1" "CONFIRMED" None])) with
  | Ok r => map o_status (lres_orders r) = [OrderStatus_to_i32 Confirmed] /\
            lres_total_count r = 1
  | Err _ => False
  end.
Proof. vm_compute. split; [reflexivity|split; reflexivity]. Qed.

Lemma list_orders_status_filter_witness : lres_total_count listed0_resp = 1 /\
  map o_status (lres_orders listed0_resp) = [OrderStatus_to_i32 Processing].
Proof.
  destruct (list_orders_status_filter env0 {| lr_page := 1; lr_page_size := 10; lr_status := 2 |}
    (store0 [order_row "o1" "CONFIRMED" None; order_row "o2" "PROCESSING" None])
    (fst listed0) listed0_resp ltac:(vm_compute; reflexivity)) as (_ & _ & H).
  destruct (H ltac:(discriminate)) as (Htot & Hst).
  split.
  - rewrite Htot. vm_compute. reflexivity.
  - vm_compute. reflexivity.
Defined.

(** C9 (as stated, refuted): a one-item CreateOrder makes a single
    product-service call for the item (the availability check); the price
    is a SQL read, and the other call is the name lookup after commit. *)
Lemma create_order_price_read_by_sql :
  List.filter is_catalog_rpc (trace created0_state) =
    [RpcCheckAvailability "P1" 2; RpcGetProductsByIds ["P1"]] /\
  In (SqlSelectPrice "P1") (trace created0_state) /\
  cres_success created0_resp = true.
Proof. vm_compute. split; [reflexivity|split; [tauto|reflexivity]]. Qed.

Lemma create_order_catalog_access_witness : exists ids, List.filter is_catalog_rpc (trace created0_state) =
  [RpcCheckAvailability "P1" 2; RpcGetProductsByIds ids].
Proof.
  destruct (create_order_catalog_access env0 (create_req 2) (store0 []) created0_state
    created0_resp ltac:(vm_compute; reflexivity) ltac:(vm_compute; reflexivity))
    as (_ & ids & H).
  exists ids. rewrite H. reflexivity.
Defined.


End Examples.
End OrderFacts.

(* ===================================================================== *)
(** ** Orders: the stored total under binary64 arithmetic *)
(* ===================================================================== *)

Module OrderFloatFacts.
Import Order OrderSpec OrderFloatExamples.
Local Open Scope string_scope.
Local Open Scope Z_scope.
#[local] Existing Instance ieee_model.

(** C2: with binary64 arithmetic and amounts in cents, the stored
    [total_amount] of a successful CreateOrder is the f64 running sum of
    [price * quantity] rounded to cents, which need not be the exact sum
    of the stored line prices times their quantities.  The spec's scenario
    (P1 at 9.99, two units) stores 19.98 = 9.99 x 2, but an order of
    1000000001 units at 50000.01 stores a total one cent above its line
    price times its quantity. *)
Theorem create_order_total_not_item_sum :
  (exists (s' : St) (r : CreateOrderResponse) (o : DbOrder) (it : DbOrderItem),
     create_order OrderExamples.env0 scenario_req scenario_store = (s', Ok r) /\
     cres_success r = true /\ orders (db s') = [o] /\ order_items (db s') = [it] /\
     price it = 999 /\ quantity it = 2 /\
     total_amount o = price it * quantity it /\ total_amount o = 1998) /\
  (exists (s' : St) (r : CreateOrderResponse) (o : DbOrder) (it : DbOrderItem),
     create_order OrderExamples.env0 bulk_req bulk_store = (s', Ok r) /\
     cres_success r = true /\ orders (db s') = [o] /\ order_items (db s') = [it] /\
     price it = 5000001 /\ quantity it = 1000000001 /\
     total_amount o = price it * quantity it + 1).
Proof.
  split.
  - assert (H : create_order OrderExamples.env0 scenario_req scenario_store = scenario_run)
      by vm_cast_no_check (eq_refl scenario_run).
    rewrite H. unfold scenario_run. do 4 eexists.
    split; [reflexivity|]. cbn. do 6 (split; [reflexivity|]). reflexivity.
  - assert (H : create_order OrderExamples.env0 bulk_req bulk_store = bulk_run)
      by vm_cast_no_check (eq_refl bulk_run).
    rewrite H. unfold bulk_run. do 4 eexists.
    split; [reflexivity|]. cbn. do 5 (split; [reflexivity|]). reflexivity.
Qed.

End OrderFloatFacts.

(* ===================================================================== *)
(** ** Further properties of the admission controller and the order service *)
(* ===================================================================== *)

Module RateLimitExtra.
Import RateLimit RateLimitFacts.
Local Open Scope N_scope.

(** A request of one key leaves every other key's state as it was. *)
Theorem check_rate_other_keys (cfg : RateLimitConfig) (clients : Clients) key key' now :
  key' <> key -> fst (check_rate cfg clients key now) !! key' = clients !! key'.
Proof.
  intros Hne. unfold check_rate.
  destruct (clients !! key) as [st|]; [|cbn; by rewrite lookup_insert_ne].
  destruct (window cfg <? _); [cbn; by rewrite lookup_insert_ne|].
  destruct (count st <? max_requests cfg); cbn; [by rewrite lookup_insert_ne|reflexivity].
Qed.

(** From a key's first request at [t0], of a burst of requests all within
    [window] of [t0], exactly the first [max_requests] are allowed. *)
Theorem burst_first_max_allowed (cfg : RateLimitConfig) (clients : Clients) key t0
    (ts : list N) :
  clients !! key = None -> 1 <= max_requests cfg ->
  Forall (fun t => t0 <= t <= t0 + window cfg) ts ->
  snd (run_key cfg clients key (t0 :: ts)) =
    map (fun i => N.of_nat i <? max_requests cfg) (seq 0 (S (length ts))).
Proof.
  intros Hk Hm Hts. cbn [run_key]. unfold check_rate at 1. rewrite Hk.
  destruct (run_key cfg _ key ts) as [c2 rest] eqn:Hrun. cbn [snd].
  pose proof (run_key_within_window cfg key t0 ts Hts
    (<[key := {| count := 1; window_start := t0 |}]> clients) 1
    ltac:(by rewrite lookup_insert_eq)) as H.
  rewrite Hrun in H. cbn [snd] in H. rewrite H.
  cbn [seq map]. f_equal.
  - symmetry. apply N.ltb_lt. lia.
  - rewrite <- seq_shift, map_map. apply map_ext. intros i. f_equal. lia.
Qed.

(** The client table only grows: a request adds its key if it is new and
    never removes any key. *)
Theorem check_rate_dom (cfg : RateLimitConfig) (clients : Clients) key now :
  dom (fst (check_rate cfg clients key now)) = {[key]} ∪ dom clients.
Proof.
  unfold check_rate. destruct (clients !! key) as [st|] eqn:Hk.
  - assert (Hin : key ∈ dom clients) by (apply elem_of_dom; eauto).
    destruct (window cfg <? _); [cbn; rewrite dom_insert_L; set_solver|].
    destruct (count st <? max_requests cfg); cbn; [rewrite dom_insert_L|]; set_solver.
  - cbn. by rewrite dom_insert_L.
Qed.

Lemma check_rate_other_keys_witness :
  fst (check_rate ten_per_minute ∅ "a" 0) !! "b" = None.
Proof.
  rewrite (check_rate_other_keys ten_per_minute ∅ "a" "b" 0 ltac:(discriminate)).
  apply lookup_empty.
Defined.

Lemma burst_first_max_allowed_witness :
  snd (run_key ten_per_minute ∅ "k" [0; 1; 2; 3; 4; 5; 6; 7; 8; 9; 10; 11]) =
    [true; true; true; true; true; true; true; true; true; true; false; false].
Proof.
  rewrite (burst_first_max_allowed ten_per_minute ∅ "k" 0 [1; 2; 3; 4; 5; 6; 7; 8; 9; 10; 11]
    ltac:(apply lookup_empty) ltac:(vm_compute; discriminate)
    ltac:(repeat constructor; vm_compute; discriminate)).
  vm_compute. reflexivity.
Defined.

End RateLimitExtra.

Module OrderExtra.
Import Order OrderSpec OrderFacts.
Local Open Scope string_scope.
Local Open Scope Z_scope.

Ltac keeps := repeat (intros; apply keeps_bind || apply keeps_ret || apply keeps_lift
  || apply keeps_emit || apply keeps_read).

(** Writing a status and reading it back gives the same status. *)
Theorem status_string_round_trip st : status_to_proto (status_to_string st) = st.
Proof. destruct st; reflexivity. Qed.

(** Reading a stored status string and writing it back keeps the six
    known strings and turns every other string into "PENDING". *)
Theorem status_proto_round_trip s :
  status_to_string (status_to_proto s) =
    if existsb (String.eqb s)
         ["PENDING"; "CONFIRMED"; "PROCESSING"; "SHIPPED"; "DELIVERED"; "CANCELLED"]
    then s else "PENDING".
Proof.
  unfold status_to_proto. cbn [existsb].
  repeat match goal with |- context [String.eqb s ?c] =>
    let E := fresh in destruct (String.eqb s c) eqn:E;
    [apply String.eqb_eq in E; subst; reflexivity|] end.
  reflexivity.
Qed.

Section Get.
Context {fm : FloatModel}.

Lemma keeps_eq {A} (m : M A) : keeps_db m -> forall s s' r, m s = (s', r) -> db s' = db s.
Proof. intros Hm s s' r H. specialize (Hm s). rewrite H in Hm. exact Hm. Qed.

Lemma keeps_get_order env req : keeps_db (get_order env req).
Proof.
  unfold get_order. destruct (String.eqb _ _); [keeps|].
  apply keeps_bind; [apply keeps_select_order|]. intros [o|]; [|keeps].
  apply keeps_bind; [apply keeps_db_order_to_proto|]. keeps.
Qed.

(** GetOrder never changes the store; an empty id is refused before any
    query, and an id with no stored order answers "Order not found". *)
Theorem get_order_read_only env (req : GetOrderRequest) (s : St) :
  db (fst (get_order env req s)) = db s /\
  (gr_order_id req = "" ->
   get_order env req s = (s, Ok {| gres_success := false;
     gres_message := "Order ID is required"; gres_order := None |})) /\
  (gr_order_id req <> "" -> find_order (gr_order_id req) (orders (db s)) = None ->
   snd (get_order env req s) = Ok {| gres_success := false;
     gres_message := "Order not found"; gres_order := None |}).
Proof.
  split; [apply keeps_get_order|]. split.
  - intros H. unfold get_order. rewrite H. reflexivity.
  - intros H Hn. unfold get_order. apply String.eqb_neq in H. rewrite H.
    unfold select_order, bind, emit, read_db, ret. cbn. rewrite Hn. reflexivity.
Qed.

(** GetOrder of a stored order, when the product service answers the name
    lookup: the answer carries the row's columns (a missing address as
    the empty string, the status read through [status_to_proto]) and one
    item per stored line item of the order, in some order, whose unit
    price is the stored price and whose subtotal is recomputed from it. *)
Theorem get_order_found env (req : GetOrderRequest) (s : St) o ps :
  gr_order_id req <> "" ->
  find_order (gr_order_id req) (orders (db s)) = Some o ->
  rpc_get_products_by_ids env
    (map product_id (List.filter (fun i => String.eqb (order_id i) (gr_order_id req))
                                 (order_items (db s)))) = Ok ps ->
  exists s' po,
  get_order env req s = (s', Ok {| gres_success := true;
     gres_message := "Order retrieved successfully"; gres_order := Some po |}) /\
  db s' = db s /\
  o_order_id po = gr_order_id req /\ o_user_id po = user_id o /\
  o_total_amount po = decimal_to_f64 (total_amount o) /\
  o_status po = OrderStatus_to_i32 (status_to_proto (status o)) /\
  o_shipping_address po = match shipping_address o with Some a => a | None => "" end /\
  o_created_at po = created_at o /\ o_updated_at po = updated_at o /\
  exists rows,
  Permutation (List.filter (fun i => String.eqb (order_id i) (gr_order_id req))
                           (order_items (db s))) rows /\
  Forall2 (fun r it =>
      item_product_id it = product_id r /\ item_quantity it = quantity r /\
      item_unit_price it = decimal_to_f64 (price r) /\
      item_subtotal it = f64_mul (decimal_to_f64 (price r)) (f64_of_i32 (quantity r)))
    rows (o_items po).
Proof.
  intros Hid Hf Hps.
  assert (Ho : oid o = gr_order_id req).
  { unfold find_order in Hf. apply find_some in Hf as [_ Hf]. by apply String.eqb_eq. }
  unfold get_order. apply String.eqb_neq in Hid. rewrite Hid.
  unfold db_order_to_proto, get_order_items, select_order_items, select_order,
    get_products_by_ids, bind, emit, read_db, ret, lift. cbn.
  rewrite Hf. cbn. rewrite Ho, Hps. cbn.
  do 2 eexists. split; [reflexivity|]. cbn.
  do 8 (split; [reflexivity|]).
  eexists. split; [reflexivity|].
  clear Hps Hf. induction (List.filter _ _) as [|r rows IH]; constructor; [|exact IH].
  cbn. auto.
Qed.

Lemma insert_by_created_desc_sorted o l :
  StronglySorted (fun a b => created_at b <= created_at a) l ->
  StronglySorted (fun a b => created_at b <= created_at a) (insert_by_created_desc o l).
Proof.
  induction 1 as [|o' l Hl IH Hf]; cbn; [repeat constructor|].
  destruct (Z.ltb_spec (created_at o') (created_at o)).
  - constructor; [constructor; assumption|]. constructor; [lia|].
    eapply Forall_impl; [exact Hf|]. cbn. intros x Hx. lia.
  - constructor; [exact IH|]. apply List.Forall_forall. intros x Hx.
    apply in_insert_by_created_desc in Hx as [->|Hx]; [lia|].
    rewrite List.Forall_forall in Hf. exact (Hf x Hx).
Qed.

Lemma sort_by_created_desc_sorted l :
  StronglySorted (fun a b => created_at b <= created_at a) (sort_by_created_desc l).
Proof.
  induction l as [|o l IH]; [constructor|]. apply insert_by_created_desc_sorted, IH.
Qed.

Lemma strongly_sorted_window {A} (R : A -> A -> Prop) n m l :
  StronglySorted R l -> StronglySorted R (firstn n (skipn m l)).
Proof.
  intros H. assert (Hs : StronglySorted R (skipn m l)).
  { revert l H. induction m as [|m IH]; intros [|x l] H; cbn; auto.
    apply IH. inversion H; assumption. }
  revert Hs. generalize (skipn m l). clear. induction n as [|n IH]; intros [|x l] H; cbn;
    [constructor|constructor|constructor|].
  inversion H as [|? ? Hl Hf]; subst. constructor; [auto|].
  rewrite List.Forall_forall in *. intros y Hy. apply Hf. eapply in_window with (m := 0%nat). exact Hy.
Qed.

Lemma map_m_db_order_to_proto_cols env rows :
  forall s s' pos, map_m (db_order_to_proto env) rows s = (s', Ok pos) ->
  Forall2 (fun o po => o_user_id po = user_id o /\ o_created_at po = created_at o) rows pos.
Proof.
  induction rows as [|o rows IH]; intros s s' pos H; cbn in H.
  - inversion H; subst. constructor.
  - apply bind_inv in H as [(e & _ & He)|(s1 & po & Hp & H)]; [discriminate|].
    apply bind_inv in H as [(e & _ & He)|(s2 & pos' & Hr & H)]; [discriminate|].
    inversion H; subst; clear H. constructor; [|exact (IH _ _ _ Hr)].
    unfold db_order_to_proto, get_order_items, select_order_items, get_products_by_ids,
      bind, emit, read_db, ret, lift in Hp. cbn in Hp.
    destruct (rpc_get_products_by_ids env _); inversion Hp; subst; cbn; auto.
Qed.

Lemma sorted_transfer rows pos :
  Forall2 (fun o po => o_user_id po = user_id o /\ o_created_at po = created_at o) rows pos ->
  StronglySorted (fun a b => created_at b <= created_at a) rows ->
  StronglySorted (fun a b : Order => o_created_at b <= o_created_at a) pos.
Proof.
  induction 1 as [|o po rows pos [_ Hc] Hf IH]; intros Hs; [constructor|].
  inversion Hs as [|? ? Hl Ho]; subst. constructor; [auto|].
  rewrite List.Forall_forall in *. intros po' Hpo'.
  destruct (Forall2_in_r' _ _ _ _ Hf Hpo') as (o' & Ho' & _ & Hc').
  rewrite Hc, Hc'. exact (Ho o' Ho').
Qed.

(** What [select_orders_page] answers when it succeeds. *)
Lemma select_orders_page_ok keep limit offset s s' rows :
  select_orders_page keep limit offset s = (s', Ok rows) ->
  0 <= offset /\ db s' = db s /\
  rows = firstn (Z.to_nat limit)
           (skipn (Z.to_nat offset) (sort_by_created_desc (List.filter keep (orders (db s))))).
Proof.
  unfold select_orders_page, bind, emit, read_db, ret, lift. cbn.
  intros H. destruct (Z.ltb_spec offset 0); inversion H; subst; auto.
Qed.

Lemma keeps_count_orders keep : keeps_db (count_orders keep).
Proof. unfold count_orders. keeps. Qed.

Lemma forall2_len {A B} (R : A -> B -> Prop) l k : Forall2 R l k -> length l = length k.
Proof. induction 1; cbn; congruence. Qed.

Lemma firstn_length_le_nat {A} n (l : list A) : (length (firstn n l) <= n)%nat.
Proof. rewrite length_firstn. lia. Qed.

(** ListOrders never changes the store, answers at most [page_size]
    orders ([page_size] taken as 10 when it is not in 1..100), newest
    first by [created_at]. *)
Theorem list_orders_page_shape env (req : ListOrdersRequest) s s' r :
  list_orders env req s = (s', Ok r) ->
  db s' = db s /\
  (1 <= lr_page_size req <= 100 -> (length (lres_orders r) <= Z.to_nat (lr_page_size req))%nat) /\
  (lr_page_size req <= 0 \/ 100 < lr_page_size req -> (length (lres_orders r) <= 10)%nat) /\
  StronglySorted (fun a b : Order => o_created_at b <= o_created_at a) (lres_orders r).
Proof.
  intros H. unfold list_orders in H.
  apply bind_inv in H as [(e & _ & He)|(s1 & rows & Hrows & H)]; [discriminate|].
  apply bind_inv in H as [(e & _ & He)|(s2 & tc & Htc & H)]; [discriminate|].
  apply bind_inv in H as [(e & _ & He)|(s3 & pos & Hpos & H)]; [discriminate|].
  inversion H; subst; clear H. cbn.
  apply select_orders_page_ok in Hrows as (_ & Hd1 & ->).
  unfold count_orders, bind, emit, read_db, ret in Htc. cbn in Htc.
  inversion Htc; subst; clear Htc.
  pose proof (map_m_db_order_to_proto_cols _ _ _ _ _ Hpos) as Hf.
  apply map_m_db_order_to_proto in Hpos as (Hd3 & _). cbn in Hd3.
  pose proof (forall2_len _ _ _ Hf) as Hl. rewrite <- Hl.
  split; [congruence|]. split; [|split].
  - intros Hps. replace ((lr_page_size req <=? 0) || (100 <? lr_page_size req)) with false.
    + apply firstn_length_le_nat.
    + symmetry. apply orb_false_iff. split; [apply Z.leb_gt|apply Z.ltb_ge]; lia.
  - intros Hps. replace ((lr_page_size req <=? 0) || (100 <? lr_page_size req)) with true.
    + apply firstn_length_le_nat.
    + symmetry. apply orb_true_iff. destruct Hps; [left; apply Z.leb_le|right; apply Z.ltb_lt]; lia.
  - eapply sorted_transfer; [exact Hf|]. apply strongly_sorted_window, sort_by_created_desc_sorted.
Qed.

(** GetOrdersByUser: an empty user id is refused before any query;
    otherwise the call never changes the store, every order it returns
    belongs to the user, [total_count] is the number of the user's
    orders whatever the page, and the page holds at most [page_size]
    orders (10 when [page_size] is not in 1..100), newest first. *)
Theorem get_orders_by_user_spec env (req : GetOrdersByUserRequest) s :
  (ur_user_id req = "" ->
   get_orders_by_user env req s = (s, Ok {| ures_orders_success := false;
     ures_orders_message := "User ID is required"; ures_orders := [];
     ures_total_count := 0 |})) /\
  (forall s' r, get_orders_by_user env req s = (s', Ok r) -> ur_user_id req <> "" ->
   db s' = db s /\ ures_orders_success r = true /\
   Forall (fun po => o_user_id po = ur_user_id req) (ures_orders r) /\
   ures_total_count r = wrap_i32 (Z.of_nat (length (List.filter
     (fun o => String.eqb (user_id o) (ur_user_id req)) (orders (db s))))) /\
   (1 <= ur_page_size req <= 100 -> (length (ures_orders r) <= Z.to_nat (ur_page_size req))%nat) /\
   (ur_page_size req <= 0 \/ 100 < ur_page_size req -> (length (ures_orders r) <= 10)%nat) /\
   StronglySorted (fun a b : Order => o_created_at b <= o_created_at a) (ures_orders r)).
Proof.
  split.
  - intros Hu. unfold get_orders_by_user. rewrite Hu. reflexivity.
  - intros s' r H Hu. unfold get_orders_by_user in H. apply String.eqb_neq in Hu.
    rewrite Hu in H.
    apply bind_inv in H as [(e & _ & He)|(s1 & rows & Hrows & H)]; [discriminate|].
    apply bind_inv in H as [(e & _ & He)|(s2 & tc & Htc & H)]; [discriminate|].
    apply bind_inv in H as [(e & _ & He)|(s3 & pos & Hpos & H)]; [discriminate|].
    inversion H; subst; clear H. cbn.
    apply select_orders_page_ok in Hrows as (_ & Hd1 & ->).
    unfold count_orders, bind, emit, read_db, ret in Htc. cbn in Htc.
    inversion Htc; subst; clear Htc.
    pose proof (map_m_db_order_to_proto_cols _ _ _ _ _ Hpos) as Hf.
    apply map_m_db_order_to_proto in Hpos as (Hd3 & _). cbn in Hd3.
    pose proof (forall2_len _ _ _ Hf) as Hl.
    split; [congruence|]. split; [reflexivity|]. split.
    { apply List.Forall_forall. intros po Hpo.
      destruct (Forall2_in_r' _ _ _ _ Hf Hpo) as (o & Ho & Hu' & _).
      apply in_window, in_sort_by_created_desc, filter_In in Ho as (_ & Ho).
      rewrite Hu'. by apply String.eqb_eq. }
    split; [rewrite Hd1; reflexivity|]. rewrite <- Hl. split; [|split].
    + intros Hps. replace ((ur_page_size req <=? 0) || (100 <? ur_page_size req)) with false.
      * apply firstn_length_le_nat.
      * symmetry. apply orb_false_iff. split; [apply Z.leb_gt|apply Z.ltb_ge]; lia.
    + intros Hps. replace ((ur_page_size req <=? 0) || (100 <? ur_page_size req)) with true.
      * apply firstn_length_le_nat.
      * symmetry. apply orb_true_iff.
        destruct Hps; [left; apply Z.leb_le|right; apply Z.ltb_lt]; lia.
    + eapply sorted_transfer; [exact Hf|].
      apply strongly_sorted_window, sort_by_created_desc_sorted.
Qed.

(** The page offset [(page - 1) * page_size] is an [i32] product: a page
    number large enough makes it wrap to a negative value, and ListOrders
    then fails with a database error, leaving the store unchanged. *)
Theorem list_orders_offset_overflow env (req : ListOrdersRequest) s :
  let page := if lr_page req <=? 0 then 1 else lr_page req in
  let page_size := if (lr_page_size req <=? 0) || (100 <? lr_page_size req)
                   then 10 else lr_page_size req in
  wrap_i32 ((page - 1) * page_size) < 0 ->
  db (fst (list_orders env req s)) = db s /\
  exists e, snd (list_orders env req s) = Err e.
Proof.
  intros page page_size Hneg. unfold list_orders, select_orders_page, bind, emit, read_db, lift.
  cbn -[wrap_i32]. fold page. fold page_size.
  replace (wrap_i32 ((page - 1) * page_size) <? 0) with true by (symmetry; apply Z.ltb_lt; exact Hneg).
  cbn. eauto.
Qed.

Lemma create_order_db env (req : CreateOrderRequest) (s : St) :
  db (fst (create_order env req s)) = db s \/
  exists row rows,
    orders (db (fst (create_order env req s))) = (orders (db s) ++ [row])%list /\
    user_id row = cr_user_id req /\ status row = "PENDING" /\
    order_items (db (fst (create_order env req s))) = (order_items (db s) ++ rows)%list /\
    Forall (fun r => order_id r = oid row) rows /\
    map (fun r => (product_id r, quantity r)) rows =
      map (fun it => (item_product_id it, item_quantity it)) (cr_items req) /\
    products (db (fst (create_order env req s))) =
      shift_stock (fun p => - ordered_qty (cr_items req) p) (products (db s)).
Proof.
  destruct (create_order env req s) as [s' res] eqn:H. cbn [fst].
  unfold create_order in H.
  destruct (String.eqb (cr_user_id req) ""); [inversion H; auto|].
  destruct (cr_items req) as [|it0 items0] eqn:Hi; [inversion H; auto|].
  cbv beta iota in H. rewrite <- Hi in *.
  apply bind_inv in H as [(e1 & Hv & _)|(s2 & verified & Hv & H)].
  { left. unfold verify_user_by_id, bind, emit, lift in Hv. cbn in Hv.
    destruct (rpc_verify env _); inversion Hv; subst; reflexivity. }
  unfold verify_user_by_id, bind, emit, lift in Hv. cbn in Hv.
  destruct (rpc_verify env (cr_user_id req)) as [b|e1]; inversion Hv; subst; clear Hv.
  destruct verified; cbv beta iota in H; simpl negb in H; cbv beta iota in H.
  2:{ left. inversion H; subst. reflexivity. }
  pose proof (keeps_validate_items env (cr_items req) f64_zero
    {| db := db s; trace := (trace s ++ [RpcVerify (cr_user_id req)])%list;
       uuids_drawn := uuids_drawn s |}) as Hk.
  apply bind_inv in H as [(e1 & Hval & _)|(s3 & vres & Hval & H)].
  { left. rewrite Hval in Hk. exact Hk. }
  destruct vres as [resp|[t v]].
  { left. rewrite Hval in Hk. inversion H; subst. exact Hk. }
  apply validate_items_ok in Hval as (Hmap & Hd3 & Hu3 & Ht3). cbn in Hd3, Hu3, Ht3.
  apply bind_inv in H as [(e1 & Htx & _)|(s4 & nid & Htx & H)].
  { left. unfold with_tx in Htx.
    destruct ((emit SqlBegin ;;; _) s3) as [s4' [a|e2]]; inversion Htx; subst.
    cbn. exact Hd3. }
  unfold with_tx in Htx.
  destruct ((emit SqlBegin ;;; _) s3) as [s4' [a|e2]] eqn:Eb; inversion Htx; subst; clear Htx.
  unfold new_uuid, ok_or, insert_order, commit, bind, emit, read_db, lift, write_db, ret in Eb.
  cbn -[persist_items] in Eb.
  destruct (decimal_from_f64_retain t) as [td|]; cbn -[persist_items] in Eb; [|discriminate].
  destruct (existsb _ _) eqn:Hex; cbn -[persist_items] in Eb; [discriminate|].
  match type of Eb with context [persist_items env ?i v ?s5] =>
    destruct (persist_items env i v s5) as [s6 [[]|e2]] eqn:Ep end; [|discriminate].
  inversion Eb; subst; clear Eb.
  apply persist_items_ok in Ep as (Ho6 & Hc6 & (rows & Hi6 & Hf6 & Hm6) & Hp6 & _).
  cbn in Ho6, Hc6, Hi6, Hp6.
  assert (Hs' : db s' = db s6).
  { apply bind_inv in H as [(e1 & Hf7 & _)|(s7 & o7 & Hf7 & H)].
    - apply (keeps_eq _ (keeps_fetch_one_order _)) in Hf7. exact Hf7.
    - apply (keeps_eq _ (keeps_fetch_one_order _)) in Hf7. cbn in Hf7.
      apply bind_inv in H as [(e1 & Hp8 & _)|(s8 & po & Hp8 & H)];
        apply (keeps_eq _ (keeps_db_order_to_proto _ _)) in Hp8;
        [|unfold ret in H; inversion H; subst]; congruence. }
  right. rewrite Hs'. eexists _, rows.
  rewrite Ho6, Hi6, Hp6, Hd3. split; [reflexivity|]. cbn.
  split; [reflexivity|]. split; [reflexivity|]. split; [reflexivity|].
  split; [exact Hf6|]. split.
  - rewrite Hm6, <- Hmap, map_map. reflexivity.
  - rewrite Hmap. reflexivity.
Qed.

(** CreateOrder is all or nothing even when it ends in a fault: either the
    store is as before (a fault before or inside the transaction, which is
    rolled back), or the whole order was already committed (a fault of the
    re-fetch or of the product-name lookup after [COMMIT]): its row, all its
    line items and all its stock decrements. *)
Theorem create_order_fault_all_or_nothing env (req : CreateOrderRequest) (s s' : St) e :
  create_order env req s = (s', Err e) ->
  db s' = db s \/
  exists row rows,
    orders (db s') = (orders (db s) ++ [row])%list /\
    user_id row = cr_user_id req /\ status row = "PENDING" /\
    order_items (db s') = (order_items (db s) ++ rows)%list /\
    Forall (fun r => order_id r = oid row) rows /\
    map (fun r => (product_id r, quantity r)) rows =
      map (fun it => (item_product_id it, item_quantity it)) (cr_items req) /\
    products (db s') = shift_stock (fun p => - ordered_qty (cr_items req) p) (products (db s)).
Proof.
  intros H. pose proof (create_order_db env req s) as Hd. rewrite H in Hd. exact Hd.
Qed.

Lemma no_hit_map_id id (f : DbOrder -> DbOrder) os :
  find_order id os = None ->
  map (fun o => if String.eqb (oid o) id then f o else o) os = os /\
  List.filter (fun o => String.eqb (oid o) id) os = [].
Proof.
  unfold find_order. induction os as [|o os IH]; cbn; [auto|].
  destruct (String.eqb (oid o) id); [discriminate|]. intros H.
  destruct (IH H) as [-> ->]. auto.
Qed.

(** UpdateOrder with an empty id is refused before any query; with an id
    no stored order has, it answers "Order not found" and changes
    nothing. *)
Theorem update_order_missing env (req : UpdateOrderRequest) (s : St) :
  (ur_order_id req = "" ->
   update_order env req s = (s, Ok {| ures_success := false;
     ures_message := "Order ID is required"; ures_order := None |})) /\
  (ur_order_id req <> "" -> find_order (ur_order_id req) (orders (db s)) = None ->
   db (fst (update_order env req s)) = db s /\
   snd (update_order env req s) = Ok {| ures_success := false;
     ures_message := "Order not found"; ures_order := None |}).
Proof.
  split.
  - intros H. unfold update_order. rewrite H. reflexivity.
  - intros H Hn. apply String.eqb_neq in H. unfold update_order. rewrite H.
    unfold update_order_rows, bind, emit, read_db, write_db, ret. cbn.
    match goal with |- context [map (fun o => if String.eqb (oid o) ?i then @?f o else o) ?os] =>
      destruct (no_hit_map_id i f os Hn) as [Hm Hf] end.
    rewrite Hm, Hf. cbn. split; [destruct (db s); reflexivity|reflexivity].
Qed.

(** UpdateOrder rewrites only the addressed order's status (an unknown
    value read as Pending), shipping address (NULL for an empty one) and
    [updated_at]; its other columns, every other order, the line items
    and the stock are unchanged. *)
Theorem update_order_frame env (req : UpdateOrderRequest) (s : St) :
  ur_order_id req <> "" ->
  orders (db (fst (update_order env req s))) =
    map (fun o => if String.eqb (oid o) (ur_order_id req)
                  then {| oid := oid o; user_id := user_id o; total_amount := total_amount o;
                          status := status_to_string (requested_status (ur_status req));
                          shipping_address := if String.eqb (ur_shipping_address req) ""
                                              then None else Some (ur_shipping_address req);
                          created_at := created_at o; updated_at := clock (db s) |}
                  else o) (orders (db s)) /\
  order_items (db (fst (update_order env req s))) = order_items (db s) /\
  products (db (fst (update_order env req s))) = products (db s) /\
  clock (db (fst (update_order env req s))) = clock (db s).
Proof.
  intros Hid. apply String.eqb_neq in Hid. rewrite (update_order_db env req s Hid). cbn.
  auto.
Qed.

(** CancelOrder with an empty id is refused before any query.  A
    successful CancelOrder sets the order's status to "CANCELLED" and its
    [updated_at] to the current time, keeps its other columns, and leaves
    every other order and all line items as they were. *)
Theorem cancel_order_effects (req : CancelOrderRequest) (s s' : St) r :
  (xr_order_id req = "" ->
   cancel_order req s = (s, Ok {| xres_success := false;
     xres_message := "Order ID is required" |})) /\
  (cancel_order req s = (s', Ok r) -> xres_success r = true ->
   orders (db s') =
     map (fun o => if String.eqb (oid o) (xr_order_id req)
                   then {| oid := oid o; user_id := user_id o; total_amount := total_amount o;
                           status := "CANCELLED"; shipping_address := shipping_address o;
                           created_at := created_at o; updated_at := clock (db s) |}
                   else o) (orders (db s)) /\
   order_items (db s') = order_items (db s)).
Proof.
  split.
  - intros H. unfold cancel_order. rewrite H. reflexivity.
  - intros H Hs. destruct (cancel_order_success req s s' r H Hs) as (_ & Ho & Hi & _).
    split; [exact Ho|exact Hi].
Qed.

Lemma find_order_snoc id os (row : DbOrder) :
  find_order id os = None -> oid row = id -> find_order id (os ++ [row]) = Some row.
Proof.
  unfold find_order. induction os as [|o os IH]; cbn.
  - intros _ ->. by rewrite String.eqb_refl.
  - destruct (String.eqb (oid o) id); [discriminate|]. exact IH.
Qed.

Lemma db_order_to_proto_cols env o s s' po :
  db_order_to_proto env o s = (s', Ok po) ->
  o_order_id po = oid o /\ o_user_id po = user_id o /\
  o_status po = OrderStatus_to_i32 (status_to_proto (status o)) /\
  o_shipping_address po = match shipping_address o with Some a => a | None => "" end /\
  o_created_at po = created_at o /\ o_updated_at po = updated_at o.
Proof.
  unfold db_order_to_proto, get_order_items, select_order_items, get_products_by_ids,
    bind, emit, read_db, ret, lift. cbn.
  destruct (rpc_get_products_by_ids env _); intros H; inversion H; subst; cbn; auto 10.
Qed.

(** A successful CreateOrder answers "Order created successfully" with
    the stored order as it now reads: its id is the reported order id,
    its owner the requesting user, its status Pending and its address
    the requested one. *)
Theorem create_order_response env (req : CreateOrderRequest) (s s1 : St) r :
  create_order env req s = (s1, Ok r) -> cres_success r = true ->
  cres_message r = "Order created successfully" /\
  exists po, cres_order r = Some po /\
    o_order_id po = cres_order_id r /\ o_user_id po = cr_user_id req /\
    o_status po = OrderStatus_to_i32 Pending /\
    o_shipping_address po = cr_shipping_address req.
Proof.
  intros H Hsucc. unfold create_order in H.
  destruct (String.eqb (cr_user_id req) "").
  { inversion H; subst. discriminate. }
  destruct (cr_items req) as [|it0 items0] eqn:Hi.
  { inversion H; subst. discriminate. }
  cbv beta iota in H. rewrite <- Hi in *.
  apply bind_inv in H as [(e & _ & He)|(s2 & verified & Hv & H)]; [discriminate|].
  unfold verify_user_by_id, bind, emit, lift in Hv. cbn in Hv.
  destruct (rpc_verify env (cr_user_id req)) as [b|e]; inversion Hv; subst; clear Hv.
  destruct verified; cbv beta iota in H; simpl negb in H; cbv beta iota in H.
  2:{ inversion H; subst. discriminate. }
  apply bind_inv in H as [(e & _ & He)|(s3 & vres & Hval & H)]; [discriminate|].
  destruct vres as [resp|[t v]].
  { destruct (validate_items_inl _ _ _ _ _ _ Hval) as [msg ->].
    inversion H; subst. discriminate. }
  apply validate_items_ok in Hval as (Hmap & Hd3 & Hu3 & Ht3). cbn in Hd3, Hu3, Ht3.
  apply bind_inv in H as [(e & _ & He)|(s4 & nid & Htx & H)]; [discriminate|].
  unfold with_tx in Htx.
  destruct ((emit SqlBegin ;;; _) s3) as [s4' [a|e]] eqn:Eb; inversion Htx; subst; clear Htx.
  unfold new_uuid, ok_or, insert_order, commit, bind, emit, read_db, lift, write_db, ret in Eb.
  cbn -[persist_items] in Eb.
  destruct (decimal_from_f64_retain t) as [td|]; cbn -[persist_items] in Eb; [|discriminate].
  destruct (existsb _ _) eqn:Hex; cbn -[persist_items] in Eb; [discriminate|].
  match type of Eb with context [persist_items env ?i v ?s5] =>
    destruct (persist_items env i v s5) as [s6 [[]|e]] eqn:Ep end; [|discriminate].
  inversion Eb; subst; clear Eb.
  apply persist_items_ok in Ep as (Ho6 & _). cbn in Ho6.
  apply bind_inv in H as [(e & _ & He)|(s7 & o7 & Hf7 & H)]; [discriminate|].
  apply bind_inv in H as [(e & _ & He)|(s8 & po & Hp8 & H)]; [discriminate|].
  inversion H; subst; clear H. cbn.
  apply fetch_one_order_trace in Hf7 as (_ & _ & Hfind). cbn in Hfind.
  rewrite Ho6, find_order_snoc in Hfind.
  2:{ unfold find_order. by apply existsb_find_none. }
  2:{ reflexivity. }
  injection Hfind as <-.
  apply db_order_to_proto_cols in Hp8 as (Hid & Hu & Hst & Ha & _ & _). cbn in *.
  split; [reflexivity|]. exists po. split; [reflexivity|].
  rewrite Hid, Hu, Hst, Ha. repeat split.
  destruct (String.eqb_spec (cr_shipping_address req) ""); [symmetry; assumption|reflexivity].
Qed.

Lemma snapshot_kept_refl d : snapshot_kept d d.
Proof. split; exists []; by rewrite app_nil_r. Qed.

Lemma snapshot_kept_trans d1 d2 d3 :
  snapshot_kept d1 d2 -> snapshot_kept d2 d3 -> snapshot_kept d1 d3.
Proof.
  intros [[m1 H1] [n1 G1]] [[m2 H2] [n2 G2]]. split.
  - exists (m1 ++ m2)%list. by rewrite H2, H1, app_assoc.
  - exists (n1 ++ n2)%list. by rewrite G2, G1, app_assoc.
Qed.

Lemma snapshot_kept_eq d d' :
  order_totals d' = order_totals d -> order_items d' = order_items d -> snapshot_kept d d'.
Proof. intros H1 H2. split; exists []; rewrite app_nil_r; assumption. Qed.

Lemma order_totals_map_keep (f : DbOrder -> DbOrder) id d d' :
  (forall o, oid (f o) = oid o /\ total_amount (f o) = total_amount o) ->
  orders d' = map (fun o => if String.eqb (oid o) id then f o else o) (orders d) ->
  order_totals d' = order_totals d.
Proof.
  intros Hf Ho. unfold order_totals. rewrite Ho, map_map. apply map_ext.
  intros o. destruct (String.eqb (oid o) id); [|reflexivity].
  destruct (Hf o) as [-> ->]. reflexivity.
Qed.

Lemma cancel_order_db (req : CancelOrderRequest) (s : St) :
  db (fst (cancel_order req s)) = db s \/
  (orders (db (fst (cancel_order req s))) =
     map (fun o => if String.eqb (oid o) (xr_order_id req)
                   then cancelled_row (clock (db s)) o else o) (orders (db s)) /\
   order_items (db (fst (cancel_order req s))) = order_items (db s)).
Proof.
  unfold cancel_order.
  destruct (String.eqb (xr_order_id req) "") eqn:E; [left; reflexivity|].
  unfold with_tx, bind, emit, select_order, select_order_items, read_db, ret,
    rollback, write_db, commit, lift. cbn -[restore_inventory].
  destruct (find_order (xr_order_id req) (orders (db s))) as [o|];
    cbn -[restore_inventory]; [|left; reflexivity].
  destruct (negb _ && negb _); cbn -[restore_inventory]; [left; reflexivity|].
  destruct (String.eqb (status o) "CANCELLED"); cbn -[restore_inventory]; [left; reflexivity|].
  destruct (String.eqb (status o) "DELIVERED"); cbn -[restore_inventory]; [left; reflexivity|].
  match goal with |- context [restore_inventory ?l ?s0] =>
    destruct (restore_inventory_ok l s0) as [s1 Hr]; rewrite Hr;
    apply restore_inventory_effect in Hr as (Ho1 & Hi1 & Hc1 & _) end.
  cbn in *. right. rewrite Ho1, Hi1, Hc1. split; reflexivity.
Qed.

Lemma snapshot_run_op s op : snapshot_kept (db s) (db (run_op s op)).
Proof.
  destruct op as [env req|env req|req|f]; cbn.
  - destruct (create_order_db env req s)
      as [->|(row & rows & Ho & _ & _ & Hi & _)]; [apply snapshot_kept_refl|].
    split; [exists [(oid row, total_amount row)]|exists rows]; [|exact Hi].
    unfold order_totals. rewrite Ho, map_app. reflexivity.
  - destruct (String.eqb (ur_order_id req) "") eqn:E.
    + unfold update_order. rewrite E. apply snapshot_kept_refl.
    + rewrite (update_order_db env req s E). apply snapshot_kept_eq; [|reflexivity].
      apply (order_totals_map_keep (updated_row req (clock (db s))) (ur_order_id req));
        [intros; split; reflexivity|reflexivity].
  - destruct (cancel_order_db req s) as [->|[Ho Hi]]; [apply snapshot_kept_refl|].
    apply snapshot_kept_eq; [|exact Hi].
    apply (order_totals_map_keep (cancelled_row (clock (db s))) (xr_order_id req));
      [intros; split; reflexivity|exact Ho].
  - apply snapshot_kept_eq; reflexivity.
Qed.

(** Once an order is stored, its [total_amount] and the prices of its
    line items never change: after any sequence of CreateOrder,
    UpdateOrder and CancelOrder calls and writes of the catalog service
    to [products] (new prices included), every order keeps its id and
    total in its place, and every line item row is still stored as it
    was. *)
Theorem order_amounts_permanent (ops : list StoreOp) (s : St) :
  snapshot_kept (db s) (db (run_ops s ops)).
Proof.
  unfold run_ops. revert s. induction ops as [|op ops IH]; intros s; cbn.
  - apply snapshot_kept_refl.
  - eapply snapshot_kept_trans; [apply snapshot_run_op|apply IH].
Qed.













End Get.
Section ExtraExamples.
#[local] Existing Instance cents_model.
Import OrderExamples.

Lemma get_order_read_only_witness :
  snd (get_order env0 {| gr_order_id := "o9" |} (store0 [order_row "o1" "SHIPPED" None])) =
  Ok {| gres_success := false; gres_message := "Order not found"; gres_order := None |}.
Proof.
  apply (get_order_read_only env0 {| gr_order_id := "o9" |}
    (store0 [order_row "o1" "SHIPPED" None])); [discriminate|reflexivity].
Defined.

Lemma get_order_found_witness : exists po,
  snd (get_order env0 {| gr_order_id := "o1" |} store_items) =
    Ok {| gres_success := true; gres_message := "Order retrieved successfully";
          gres_order := Some po |} /\
  length (o_items po) = 2%nat /\ o_status po = OrderStatus_to_i32 Shipped.
Proof.
  destruct (get_order_found env0 {| gr_order_id := "o1" |} store_items
    (order_row "o1" "SHIPPED" None) [("P1", "Widget"); ("P2", "Widget")]
    ltac:(discriminate) ltac:(reflexivity) ltac:(reflexivity))
    as (s' & po & H & _ & _ & _ & _ & Hst & _ & _ & _ & rows & Hp & HF).
  exists po. rewrite H. split; [reflexivity|]. split; [|exact Hst].
  apply Permutation_length in Hp. apply forall2_len in HF.
  rewrite <- HF, <- Hp. reflexivity.
Defined.

Lemma list_orders_page_shape_witness : (length (lres_orders listed0_resp) <= 10)%nat.
Proof.
  destruct (list_orders_page_shape env0 {| lr_page := 1; lr_page_size := 10; lr_status := 2 |}
    (store0 [order_row "o1" "CONFIRMED" None; order_row "o2" "PROCESSING" None])
    (fst listed0) listed0_resp ltac:(vm_compute; reflexivity)) as (_ & Hle & _).
  exact (Hle ltac:(cbn; lia)).
Defined.

Lemma get_orders_by_user_spec_witness : exists s' r,
  get_orders_by_user env0 {| ur_user_id := "U1"; ur_page := 1; ur_page_size := 10 |}
    store_items = (s', Ok r) /\
  ures_total_count r = 2 /\ Forall (fun po => o_user_id po = "U1") (ures_orders r).
Proof.
  destruct (get_orders_by_user env0 {| ur_user_id := "U1"; ur_page := 1; ur_page_size := 10 |}
    store_items) as [s' [r|e]] eqn:H; [|vm_compute in H; discriminate].
  exists s', r. split; [reflexivity|].
  destruct (proj2 (get_orders_by_user_spec env0
    {| ur_user_id := "U1"; ur_page := 1; ur_page_size := 10 |} store_items) s' r H
    ltac:(discriminate)) as (_ & _ & Hf & Htc & _).
  split; [rewrite Htc; vm_compute; reflexivity|exact Hf].
Defined.

Lemma list_orders_offset_overflow_witness : exists e,
  snd (list_orders env0 {| lr_page := 300000000; lr_page_size := 10; lr_status := 0 |}
         (store0 [order_row "o1" "CONFIRMED" None])) = Err e.
Proof.
  apply (list_orders_offset_overflow env0
    {| lr_page := 300000000; lr_page_size := 10; lr_status := 0 |}
    (store0 [order_row "o1" "CONFIRMED" None])).
  vm_compute. reflexivity.
Defined.

Lemma create_order_fault_all_or_nothing_witness :
  exists e row, snd (create_order env_names_down (create_req 2) (store0 [])) = Err e /\
  orders (db (fst (create_order env_names_down (create_req 2) (store0 [])))) = [row] /\
  status row = "PENDING".
Proof.
  destruct (create_order env_names_down (create_req 2) (store0 [])) as [s' [r|e]] eqn:H;
    [vm_compute in H; discriminate|].
  destruct (create_order_fault_all_or_nothing env_names_down (create_req 2) (store0 []) s' e H)
    as [Hd|(row & rows & Ho & _ & Hst & _)].
  - vm_compute in H. injection H as <- _. vm_compute in Hd. discriminate.
  - exists e, row. cbn. split; [reflexivity|]. split; [exact Ho|exact Hst].
Defined.

Lemma update_order_missing_witness :
  snd (update_order env0 {| ur_order_id := "o9"; ur_status := 1; ur_shipping_address := "X" |}
         (store0 [order_row "o1" "SHIPPED" None])) =
  Ok {| ures_success := false; ures_message := "Order not found"; ures_order := None |}.
Proof.
  apply (update_order_missing env0 {| ur_order_id := "o9"; ur_status := 1; ur_shipping_address := "X" |}
    (store0 [order_row "o1" "SHIPPED" None])); [discriminate|reflexivity].
Defined.

Lemma update_order_frame_witness :
  orders (db (fst (update_order env0
    {| ur_order_id := "o1"; ur_status := 4; ur_shipping_address := "X" |}
    (store0 [order_row "o1" "SHIPPED" None; order_row "o2" "PENDING" None])))) =
  [{| oid := "o1"; user_id := "U1"; total_amount := 1000; status := "DELIVERED";
      shipping_address := Some "X"; created_at := 50; updated_at := 100 |};
   order_row "o2" "PENDING" None].
Proof.
  rewrite (proj1 (update_order_frame env0
    {| ur_order_id := "o1"; ur_status := 4; ur_shipping_address := "X" |}
    (store0 [order_row "o1" "SHIPPED" None; order_row "o2" "PENDING" None]) ltac:(discriminate))).
  vm_compute. reflexivity.
Defined.

Lemma cancel_order_effects_witness :
  orders (db cancelled0_state) =
    map (fun o => if String.eqb (oid o) (cres_order_id created0_resp)
                  then {| oid := oid o; user_id := user_id o; total_amount := total_amount o;
                          status := "CANCELLED"; shipping_address := shipping_address o;
                          created_at := created_at o; updated_at := clock (db created0_state) |}
                  else o) (orders (db created0_state)).
Proof.
  apply (cancel_order_effects {| xr_order_id := cres_order_id created0_resp; xr_user_id := "U1" |}
    created0_state cancelled0_state cancelled0_resp);
  vm_compute; reflexivity.
Defined.

Lemma create_order_response_witness : exists po,
  cres_order created0_resp = Some po /\ o_status po = OrderStatus_to_i32 Pending /\
  o_shipping_address po = "Main St 1".
Proof.
  destruct (create_order_response env0 (create_req 2) (store0 []) created0_state created0_resp
    ltac:(vm_compute; reflexivity) ltac:(vm_compute; reflexivity))
    as (_ & po & Hpo & _ & _ & Hst & Ha).
  exists po. auto.
Defined.

End ExtraExamples.

End OrderExtra.
